(** * Asynchronous job lifecycle of the Sherpa backend

    A shallow embedding of [main.py] (submission and polling endpoints) and
    [worker.py] (the two job handlers) together with the properties of the
    job lifecycle: submission, processing, result persistence with expiry
    and consume-on-read polling.

    Modelling conventions.
    - A Python [str] is a list of Unicode code points ([N]); literals of the
      source are written with [py].
    - Redis is a finite map from keys to a value and an absolute expiry
      instant.  Time is a [Z] in milliseconds; [SET key value EX s] makes the
      key live up to and including the instant [now + 1000 * s], after which
      [GET] answers nil.  redis-py stores a [str] as its UTF-8 encoding and
      the polling endpoint decodes what it reads as UTF-8: the pair is the
      identity on text and the encoding is empty exactly for the empty
      text, so an entry holds the text itself.
    - An exception is represented by its [str(e)] text, the only thing the
      source ever uses of it.
    - The handlers are written in a small state-and-exception monad over the
      [World]; every external interaction is also recorded in a trace. *)

From Stdlib Require Import ZArith List String Ascii Lia Bool.
From stdpp Require Import gmap list.

Local Open Scope Z_scope.

(** ** Python strings *)

Definition char : Type := N.
Definition str : Type := list N.

(** A literal of the source. *)
Definition py (s : string) : str :=
  List.map N_of_ascii (list_ascii_of_string s).

(** [str.isspace] for one character: the code points CPython lists in
    [_PyUnicode_IsWhitespace]. *)
Definition isspace (c : char) : bool :=
  (((9 <=? c) && (c <=? 13)) || ((28 <=? c) && (c <=? 32))
   || (c =? 133) || (c =? 160) || (c =? 5760)
   || ((8192 <=? c) && (c <=? 8202))
   || (c =? 8232) || (c =? 8233) || (c =? 8239) || (c =? 8287)
   || (c =? 12288))%N.

Fixpoint lstrip (s : str) : str :=
  match s with
  | c :: s' => if isspace c then lstrip s' else s
  | [] => []
  end.

Definition rstrip (s : str) : str := rev (lstrip (rev s)).

(** [str.strip()] with no argument. *)
Definition strip (s : str) : str := rstrip (lstrip s).

(** Truthiness of the value [GET] answers: nil and the empty byte string
    are false. *)
Definition truthy (r : option str) : bool :=
  match r with
  | Some (_ :: _) => true
  | _ => false
  end.

(** What an f-string prints for an [Optional[str]]. *)
Definition fmt (v : option str) : str :=
  match v with
  | Some s => s
  | None => py "None"
  end.

(** ** Redis: keys with expiry *)

Record entry : Type := Entry { e_value : str; e_expires : Z }.

Definition live (now : Z) (e : entry) : bool := now <=? e_expires e.

Definition store_get (now : Z) (m : gmap str entry) (k : str) : option str :=
  match m !! k with
  | Some e => if live now e then Some (e_value e) else None
  | None => None
  end.

Definition store_set (now : Z) (k v : str) (ex : Z) (m : gmap str entry)
  : gmap str entry :=
  <[k := Entry v (now + 1000 * ex)]> m.

Definition store_delete (k : str) (m : gmap str entry) : gmap str entry :=
  delete k m.

(** The key [f"result:{job_id}"]. *)
Definition result_key (job_id : str) : str := py "result:" ++ job_id.

(** ** Job identifiers: [str(uuid.uuid4())] *)

(** [uuid.uuid4()] reads sixteen bytes of [os.urandom] as a big-endian
    integer and forces the variant and version fields, as [UUID.__init__]
    does for [version=4]. *)
Definition uuid4 (urandom : Z) : Z :=
  let int := urandom mod 2 ^ 128 in
  let int := Z.land int (Z.lnot (Z.shiftl 0xc000 48)) in
  let int := Z.lor int (Z.shiftl 0x8000 48) in
  let int := Z.land int (Z.lnot (Z.shiftl 0xf000 64)) in
  Z.lor int (Z.shiftl 4 76).

(** The fields [uuid4] forces: bits 63 and 78 are set, bits 62, 76, 77 and
    79 are cleared; the other 122 bits are those of the random bytes. *)
Definition forced (n : Z) : option bool :=
  if (n =? 63) || (n =? 78) then Some true
  else if (n =? 62) || (n =? 76) || (n =? 77) || (n =? 79) then Some false
  else None.

Definition hexdigit (d : Z) : char :=
  Z.to_N (if d <? 10 then 48 + d else 87 + d).

(** The [n] low hexadecimal digits of [u], most significant first
    (['%032x'] for [n = 32]). *)
Fixpoint hex (n : nat) (u : Z) : str :=
  match n with
  | O => []
  | S n' => hex n' (u / 16) ++ [hexdigit (u mod 16)]
  end.

(** [UUID.__str__]: the 8-4-4-4-12 grouping of the 32 digits. *)
Definition uuid_str (u : Z) : str :=
  let h := hex 32 u in
  take 8 h ++ py "-" ++ take 4 (drop 8 h) ++ py "-" ++ take 4 (drop 12 h)
    ++ py "-" ++ take 4 (drop 16 h) ++ py "-" ++ drop 20 h.

(** ** The world the endpoints and the workers act on *)

(** A row handed to the archival sink, and the dictionary a job carries:
    a value is a [str] or Python's [None]. *)
Definition Row : Type := list (str * option str).

Record Job : Type := MkJob {
  j_function : str;
  j_job_id : str;
  j_item : gmap str (option str) }.

Inductive Event : Type :=
| EvEnqueue (fn job_id : str)
| EvGet (key : str)
| EvDelete (key : str)
| EvSet (key value : str) (ex : Z)
| EvGenerate (prompt : str)
| EvInsert (table : str) (row : Row)
| EvPrint (msg : str).

Record World : Type := MkWorld {
  clock : Z;                        (* current instant, milliseconds *)
  redis : gmap str entry;           (* the Result Store *)
  queue : list Job;                 (* jobs enqueued and not yet taken *)
  queue_fault : option str;         (* [Some e]: enqueueing raises [e] *)
  archive : list (str * Row);       (* rows accepted by the sink, per table *)
  trace : list Event }.             (* external interactions, oldest first *)

Definition with_redis (f : gmap str entry -> gmap str entry) (w : World) : World :=
  MkWorld (clock w) (f (redis w)) (queue w) (queue_fault w) (archive w) (trace w).

Definition with_queue (f : list Job -> list Job) (w : World) : World :=
  MkWorld (clock w) (redis w) (f (queue w)) (queue_fault w) (archive w) (trace w).

Definition with_archive (f : list (str * Row) -> list (str * Row)) (w : World) : World :=
  MkWorld (clock w) (redis w) (queue w) (queue_fault w) (f (archive w)) (trace w).

Definition log (ev : Event) (w : World) : World :=
  MkWorld (clock w) (redis w) (queue w) (queue_fault w) (archive w) (trace w ++ [ev]).

(** Time passing between two requests. *)
Definition advance (d : Z) (w : World) : World :=
  MkWorld (clock w + d) (redis w) (queue w) (queue_fault w) (archive w) (trace w).

(** ** State and exceptions *)

Inductive Result (A : Type) : Type :=
| Ok (a : A)
| Raise (e : str).
Arguments Ok {A} a.
Arguments Raise {A} e.

Definition M (A : Type) : Type := World -> Result A * World.

Definition ret {A} (a : A) : M A := fun w => (Ok a, w).

Definition raise {A} (e : str) : M A := fun w => (Raise e, w).

Definition bind {A B} (m : M A) (k : A -> M B) : M B :=
  fun w =>
    match m w with
    | (Ok a, w') => k a w'
    | (Raise e, w') => (Raise e, w')
    end.

(** [try: m  except Exception as e: h e]. *)
Definition try_except {A} (m : M A) (h : str -> M A) : M A :=
  fun w =>
    match m w with
    | (Ok a, w') => (Ok a, w')
    | (Raise e, w') => h e w'
    end.

Declare Scope py_scope.
Delimit Scope py_scope with py.
Notation "x <- m ;; k" := (bind m (fun x => k))
  (at level 100, m at next level, k at level 200, right associativity)
  : py_scope.
Notation "m ;; k" := (bind m (fun _ => k))
  (at level 100, k at level 200, right associativity) : py_scope.
Local Open Scope py_scope.

(** *** The external operations *)

Definition redis_get (key : str) : M (option str) :=
  fun w => (Ok (store_get (clock w) (redis w) key), log (EvGet key) w).

Definition redis_delete (key : str) : M unit :=
  fun w => (Ok tt, log (EvDelete key) (with_redis (store_delete key) w)).

Definition redis_set (key value : str) (ex : Z) : M unit :=
  fun w =>
    (Ok tt, log (EvSet key value ex)
              (with_redis (store_set (clock w) key value ex) w)).

Definition enqueue_job (fn job_id : str) (item : gmap str (option str)) : M unit :=
  fun w =>
    match queue_fault w with
    | Some e => (Raise e, log (EvEnqueue fn job_id) w)
    | None =>
        (Ok tt, log (EvEnqueue fn job_id)
                  (with_queue (fun q => q ++ [MkJob fn job_id item]) w))
    end.

Definition print (msg : str) : M unit :=
  fun w => (Ok tt, log (EvPrint msg) w).

(** [bytes.decode('utf-8')] on what [GET] answered. *)
Definition decode (r : option str) : M str :=
  match r with
  | Some v => ret v
  | None => raise (py "'NoneType' object has no attribute 'decode'")
  end.

(** The generative model: [generate_content(prompt)] followed by reading
    [response.text] either yields the text or raises. *)
Definition Model : Type := str -> Result str.

Definition generate_content (model : Model) (prompt : str) : M str :=
  fun w => (model prompt, log (EvGenerate prompt) w).

(** The archival client: [table(t).insert(row).execute()] is accepted
    ([None]) or raises. *)
Definition Client : Type := str -> Row -> option str.

Definition insert (client : Client) (table : str) (row : Row) : M unit :=
  fun w =>
    match client table row with
    | Some e => (Raise e, log (EvInsert table row) w)
    | None =>
        (Ok tt, log (EvInsert table row)
                  (with_archive (fun a => a ++ [(table, row)]) w))
    end.

(** ** [main.py] *)

Record TranscriptInput : Type := MkTranscriptInput {
  company : option str;
  attendees : option str;
  date : option str;
  transcript : option str }.

Record IcebreakerInput : Type := MkIcebreakerInput {
  linkedin_bio : str;
  pitch_deck : str }.

(** [item.dict()]. *)
Definition transcript_dict (item : TranscriptInput) : gmap str (option str) :=
  <[py "company" := company item]>
    (<[py "attendees" := attendees item]>
       (<[py "date" := date item]>
          (<[py "transcript" := transcript item]> ∅))).

Definition icebreaker_dict (item : IcebreakerInput) : gmap str (option str) :=
  <[py "linkedin_bio" := Some (linkedin_bio item)]>
    (<[py "pitch_deck" := Some (pitch_deck item)]> ∅).

(** A JSON object of the API: its fields in the order of the literal. *)
Definition Response : Type := list (str * str).

(** [POST /analyze_transcript]; [urandom] is what [uuid.uuid4()] reads. *)
Definition queue_transcript_analysis (urandom : Z) (item : TranscriptInput)
  : M Response :=
  let job_id := uuid_str (uuid4 urandom) in
  try_except
    (enqueue_job (py "run_transcript_analysis") job_id (transcript_dict item) ;;
     ret [(py "status", py "queued"); (py "job_id", job_id)])
    (fun e => ret [(py "error", py "Failed to queue job: " ++ e)]).

(** [POST /generate_icebreaker]. *)
Definition queue_icebreaker_generation (urandom : Z) (item : IcebreakerInput)
  : M Response :=
  let job_id := uuid_str (uuid4 urandom) in
  try_except
    (enqueue_job (py "run_icebreaker_generation") job_id (icebreaker_dict item) ;;
     ret [(py "status", py "queued"); (py "job_id", job_id)])
    (fun e => ret [(py "error", py "Failed to queue job: " ++ e)]).

(** [GET /get_job_result]. *)
Definition get_job_result (job_id : str) : M Response :=
  let key := result_key job_id in
  result <- redis_get key ;;
  if truthy result then
    redis_delete key ;;
    analysis <- decode result ;;
    ret [(py "status", py "complete"); (py "analysis", analysis)]
  else
    ret [(py "status", py "pending")].

(** ** [worker.py] *)

(** The module globals a handler reads. *)
Record Deps : Type := MkDeps {
  transcript_model : option Model;
  icebreaker_model : option Model;
  supabase : option Client }.

(** [item_dict.get(k)]. *)
Definition get (item_dict : gmap str (option str)) (k : str) : option str :=
  match item_dict !! k with
  | Some v => v
  | None => None
  end.

Definition nl : str := [10%N].

Definition transcript_prompt (item_dict : gmap str (option str)) : str :=
  nl ++ py "        Review the following meeting transcript from "
     ++ fmt (get item_dict (py "company")) ++ py " held on "
     ++ fmt (get item_dict (py "date")) ++ py " with "
     ++ fmt (get item_dict (py "attendees")) ++ py "." ++ nl
     ++ py "        Transcript: " ++ fmt (get item_dict (py "transcript")) ++ nl
     ++ py "        " ++ nl
     ++ py "        Please summarize (in Markdown):" ++ nl
     ++ py "        1. What was done well and why." ++ nl
     ++ py "        2. What could be improved." ++ nl
     ++ py "        3. 3 actionable recommendations." ++ nl
     ++ py "        ".

Definition icebreaker_prompt (item_dict : gmap str (option str)) : str :=
  nl ++ py "        Analyze this LinkedIn bio and pitch deck." ++ nl
     ++ py "        Bio: " ++ fmt (get item_dict (py "linkedin_bio")) ++ nl
     ++ py "        Deck: " ++ fmt (get item_dict (py "pitch_deck")) ++ nl
     ++ py "        " ++ nl
     ++ py "        Generate a cold outreach icebreaker... (rest of your prompt)" ++ nl
     ++ py "        " ++ nl
     ++ py "        IMPORTANT: Format your entire response using Markdown." ++ nl
     ++ py "        ".

Definition run_transcript_analysis (deps : Deps) (job_id : str)
    (item_dict : gmap str (option str)) : M unit :=
  match transcript_model deps, supabase deps with
  | Some model, Some client =>
      try_except
        (let prompt := transcript_prompt item_dict in
         text <- generate_content model prompt ;;
         let output := strip text in
         let data_to_insert :=
           [(py "company", get item_dict (py "company"));
            (py "attendees", get item_dict (py "attendees"));
            (py "date", get item_dict (py "date"));
            (py "transcript", get item_dict (py "transcript"));
            (py "analysis", Some output)] in
         insert client (py "meeting_analysis") data_to_insert ;;
         redis_set (result_key job_id) output 300 ;;
         print (py "WORKER: Successfully processed job " ++ job_id))
        (fun e =>
           let error_message :=
             py "WORKER ERROR in 'run_transcript_analysis': " ++ e in
           print error_message ;;
           redis_set (result_key job_id) (py "Error: " ++ e) 300)
  | _, _ =>
      print (py "WORKER ERROR: Models or Supabase not initialized.") ;;
      redis_set (result_key job_id) (py "Error: Worker not initialized") 300
  end.

Definition run_icebreaker_generation (deps : Deps) (job_id : str)
    (item_dict : gmap str (option str)) : M unit :=
  match icebreaker_model deps, supabase deps with
  | Some model, Some client =>
      try_except
        (let prompt := icebreaker_prompt item_dict in
         text <- generate_content model prompt ;;
         let output := strip text in
         let data_to_insert :=
           [(py "linkedin_bio", get item_dict (py "linkedin_bio"));
            (py "pitch_deck", get item_dict (py "pitch_deck"));
            (py "analysis", Some output)] in
         insert client (py "icebreaker_analysis") data_to_insert ;;
         redis_set (result_key job_id) output 300 ;;
         print (py "WORKER: Successfully processed job " ++ job_id))
        (fun e =>
           let error_message :=
             py "WORKER ERROR in 'run_icebreaker_generation': " ++ e in
           print error_message ;;
           redis_set (result_key job_id) (py "Error: " ++ e) 300)
  | _, _ =>
      print (py "WORKER ERROR: Models or Supabase not initialized.") ;;
      redis_set (result_key job_id) (py "Error: Worker not initialized") 300
  end.

(** The two job kinds and the handler [WorkerSettings.functions] registers
    for each. *)
Inductive Kind : Type := TranscriptAnalysis | IcebreakerGeneration.

Definition handler (k : Kind) : Deps -> str -> gmap str (option str) -> M unit :=
  match k with
  | TranscriptAnalysis => run_transcript_analysis
  | IcebreakerGeneration => run_icebreaker_generation
  end.

(** ** The handlers as one contract over the job kinds *)

Definition model_of (k : Kind) (deps : Deps) : option Model :=
  match k with
  | TranscriptAnalysis => transcript_model deps
  | IcebreakerGeneration => icebreaker_model deps
  end.

Definition prompt_of (k : Kind) (item_dict : gmap str (option str)) : str :=
  match k with
  | TranscriptAnalysis => transcript_prompt item_dict
  | IcebreakerGeneration => icebreaker_prompt item_dict
  end.

Definition table_of (k : Kind) : str :=
  match k with
  | TranscriptAnalysis => py "meeting_analysis"
  | IcebreakerGeneration => py "icebreaker_analysis"
  end.

Definition row_of (k : Kind) (item_dict : gmap str (option str)) (output : str)
  : Row :=
  match k with
  | TranscriptAnalysis =>
      [(py "company", get item_dict (py "company"));
       (py "attendees", get item_dict (py "attendees"));
       (py "date", get item_dict (py "date"));
       (py "transcript", get item_dict (py "transcript"));
       (py "analysis", Some output)]
  | IcebreakerGeneration =>
      [(py "linkedin_bio", get item_dict (py "linkedin_bio"));
       (py "pitch_deck", get item_dict (py "pitch_deck"));
       (py "analysis", Some output)]
  end.

Definition name_of (k : Kind) : str :=
  match k with
  | TranscriptAnalysis => py "run_transcript_analysis"
  | IcebreakerGeneration => py "run_icebreaker_generation"
  end.

(** How one run of a handler ends. *)
Inductive Outcome : Type :=
| Uninitialized
| GenerationFailed (e : str)
| ArchiveFailed (text e : str)
| Succeeded (text : str).

Definition outcome (k : Kind) (deps : Deps) (item_dict : gmap str (option str))
  : Outcome :=
  match model_of k deps, supabase deps with
  | Some model, Some client =>
      match model (prompt_of k item_dict) with
      | Raise e => GenerationFailed e
      | Ok text =>
          match client (table_of k) (row_of k item_dict (strip text)) with
          | Some e => ArchiveFailed text e
          | None => Succeeded text
          end
      end
  | _, _ => Uninitialized
  end.

Definition failed (o : Outcome) : bool :=
  match o with
  | Succeeded _ => false
  | _ => true
  end.

(** The body a run leaves under [result:{job_id}]. *)
Definition body_of (o : Outcome) : str :=
  match o with
  | Uninitialized => py "Error: Worker not initialized"
  | GenerationFailed e | ArchiveFailed _ e => py "Error: " ++ e
  | Succeeded text => strip text
  end.

(** The rows a run adds to the archival sink. *)
Definition archived_by (k : Kind) (item_dict : gmap str (option str))
    (o : Outcome) : list (str * Row) :=
  match o with
  | Succeeded text => [(table_of k, row_of k item_dict (strip text))]
  | _ => []
  end.

(** The external interactions of a run, in order. *)
Definition events_of (k : Kind) (job_id : str)
    (item_dict : gmap str (option str)) (o : Outcome) : list Event :=
  let key := result_key job_id in
  let failure e := py "WORKER ERROR in '" ++ name_of k ++ py "': " ++ e in
  match o with
  | Uninitialized =>
      [EvPrint (py "WORKER ERROR: Models or Supabase not initialized.");
       EvSet key (body_of o) 300]
  | GenerationFailed e =>
      [EvGenerate (prompt_of k item_dict);
       EvPrint (failure e);
       EvSet key (body_of o) 300]
  | ArchiveFailed text e =>
      [EvGenerate (prompt_of k item_dict);
       EvInsert (table_of k) (row_of k item_dict (strip text));
       EvPrint (failure e);
       EvSet key (body_of o) 300]
  | Succeeded text =>
      [EvGenerate (prompt_of k item_dict);
       EvInsert (table_of k) (row_of k item_dict (strip text));
       EvSet key (body_of o) 300;
       EvPrint (py "WORKER: Successfully processed job " ++ job_id)]
  end.

(** Polling [job_id] repeatedly, [d] milliseconds after the previous
    request for each [d] of the list: the responses, oldest first. *)
Fixpoint polls (job_id : str) (ds : list Z) (w : World)
  : list (Result Response) * World :=
  match ds with
  | [] => ([], w)
  | d :: ds' =>
      let (r, w') := get_job_result job_id (advance d w) in
      let (rs, w'') := polls job_id ds' w' in
      (r :: rs, w'')
  end.

Definition pending : Response := [(py "status", py "pending")].

Definition complete (analysis : str) : Response :=
  [(py "status", py "complete"); (py "analysis", analysis)].

Definition queued (job_id : str) : Response :=
  [(py "status", py "queued"); (py "job_id", job_id)].

(** The value of a field of a response or of a row, [None] when it has no
    such field. *)
Fixpoint field {V : Type} (name : str) (r : list (str * V)) : option V :=
  match r with
  | [] => None
  | (k, v) :: r' => if decide (k = name) then Some v else field name r'
  end.

(** ** A small deployment for the examples *)

(** An empty store and queue at instant 0. *)
Definition world0 : World := MkWorld 0 ∅ [] None [] [].

Definition acme : TranscriptInput :=
  MkTranscriptInput (Some (py "Acme")) None None (Some (py "Hello.")).

(** A worker whose model always gives [answer] and whose archival sink
    accepts every row ([None]) or rejects every row with an error. *)
Definition deps_with (answer : Result str) (sink : option str) : Deps :=
  MkDeps (Some (fun _ => answer)) (Some (fun _ => answer))
    (Some (fun _ _ => sink)).

Definition is_set (ev : Event) : bool :=
  match ev with
  | EvSet _ _ _ => true
  | _ => false
  end.

Definition is_insert (ev : Event) : bool :=
  match ev with
  | EvInsert _ _ => true
  | _ => false
  end.

(** A submission of either kind, and the endpoint that takes it. *)
Inductive Submission : Type :=
| Transcript (item : TranscriptInput)
| Icebreaker (item : IcebreakerInput).

Definition submit (urandom : Z) (s : Submission) : M Response :=
  match s with
  | Transcript item => queue_transcript_analysis urandom item
  | Icebreaker item => queue_icebreaker_generation urandom item
  end.

(** [get_queue]: [create_pool(redis_settings)] gives the request its
    handle on the queue, or raises ([Some e]) when Redis cannot be
    reached. *)
Definition get_queue (create_pool : option str) : M unit :=
  match create_pool with
  | Some e => raise e
  | None => ret tt
  end.

(** A request to a submission route: [Depends(get_queue)] is resolved
    first, then the endpoint runs.  What the dependency raises is caught
    by nothing in [main.py]: the request ends with that exception. *)
Definition post (create_pool : option str) (urandom : Z) (s : Submission)
  : M Response :=
  get_queue create_pool ;; submit urandom s.

Definition kind_of (s : Submission) : Kind :=
  match s with
  | Transcript _ => TranscriptAnalysis
  | Icebreaker _ => IcebreakerGeneration
  end.

Definition payload_of (s : Submission) : gmap str (option str) :=
  match s with
  | Transcript item => transcript_dict item
  | Icebreaker item => icebreaker_dict item
  end.

(** ** Worker start-up and dispatch *)

(** The keys of its dictionary a handler reads. *)
Definition keys_of (k : Kind) : list str :=
  match k with
  | TranscriptAnalysis =>
      [py "company"; py "date"; py "attendees"; py "transcript"]
  | IcebreakerGeneration => [py "linkedin_bio"; py "pitch_deck"]
  end.

Definition model_name : str := py "gemini-2.5-flash-preview-09-2025".

(** What loading the module leaves: the globals the handlers read and the
    Redis address of [WorkerSettings]. *)
Record WorkerModule : Type := MkWorkerModule {
  module_deps : Deps;
  module_redis_url : str }.

(** The statements of [worker.py] that run when the module is loaded, in
    their order; [env] is the environment after [load_dotenv()].  The
    four library calls are inputs, each of which may raise:
    [configure api_key], [create_client url key],
    [GenerativeModel name system_instruction] and [from_dsn url]
    ([None]: returns, [Some e]: raises [e]).  Only the two model
    constructors stand inside a [try]; an exception of any other call
    ends the load. *)
Definition load_worker (env : gmap str str)
    (configure : str -> option str)
    (create_client : str -> str -> Result Client)
    (GenerativeModel : str -> str -> Result Model)
    (from_dsn : str -> option str) : M WorkerModule :=
  let gemini_api_key := env !! py "GEMINI_API_KEY" in
  (match gemini_api_key with
   | Some (c :: key) =>
       match configure (c :: key) with
       | Some e => raise e
       | None => ret tt
       end
   | _ => print (py "FATAL: WORKER - GEMINI_API_KEY not found.")
   end) ;;
  let supabase_url := env !! py "SUPABASE_URL" in
  let supabase_key := env !! py "SUPABASE_SERVICE_KEY" in
  supabase <-
    (match supabase_url, supabase_key with
     | Some (u :: url), Some (c :: key) =>
         match create_client (u :: url) (c :: key) with
         | Ok client => ret (Some client)
         | Raise e => raise e
         end
     | _, _ =>
         print (py "FATAL: WORKER - Supabase credentials not found.") ;;
         ret None
     end) ;;
  models <-
    (if truthy gemini_api_key then
       match GenerativeModel model_name
               (py "You are an expert meeting analyst. Format your response in Markdown.") with
       | Ok transcript_model =>
           match GenerativeModel model_name
                   (py "You are a world-class sales rep. Format your response in Markdown.") with
           | Ok icebreaker_model =>
               ret (Some transcript_model, Some icebreaker_model)
           | Raise e =>
               print (py "Error initializing GenerativeModels: " ++ e) ;;
               ret (Some transcript_model, None)
           end
       | Raise e =>
           print (py "Error initializing GenerativeModels: " ++ e) ;;
           ret (None, None)
       end
     else ret (None, None)) ;;
  let REDIS_URL :=
    match env !! py "REDIS_URL" with
    | Some url => url
    | None => py "redis://localhost:6379"
    end in
  match from_dsn REDIS_URL with
  | Some e => raise e
  | None =>
      ret (MkWorkerModule (MkDeps (fst models) (snd models) supabase)
             REDIS_URL)
  end.

(** [WorkerSettings.functions], each under the name of its function. *)
Definition functions
  : list (str * (Deps -> str -> gmap str (option str) -> M unit)) :=
  [(py "run_transcript_analysis", run_transcript_analysis);
   (py "run_icebreaker_generation", run_icebreaker_generation)].

(** One turn of a worker: it takes the oldest job off the queue and calls
    the function registered under the job's name with the job's arguments;
    a job whose name is not registered is taken off and not run. *)
Definition work (deps : Deps) : M unit :=
  fun w =>
    match queue w with
    | [] => (Ok tt, w)
    | j :: q =>
        match field (j_function j) functions with
        | Some f => f deps (j_job_id j) (j_item j) (with_queue (fun _ => q) w)
        | None => (Ok tt, with_queue (fun _ => q) w)
        end
    end.

(** The characters of a job identifier. *)
Definition is_hex (c : char) : bool :=
  (((48 <=? c) && (c <=? 57)) || ((97 <=? c) && (c <=? 102)))%N.

Definition has_prefix (p : str) (ev : Event) : Prop :=
  match ev with
  | EvGet key | EvDelete key | EvSet key _ _ => exists rest, key = p ++ rest
  | _ => True
  end.

Definition is_store_read (ev : Event) : bool :=
  match ev with
  | EvGet _ | EvDelete _ | EvEnqueue _ _ => true
  | _ => false
  end.

(** ** Strings *)

Lemma lstrip_spaces (s : str) : forallb isspace s = true -> lstrip s = [].
Proof.
  induction s as [|c s IH]; simpl; [reflexivity|].
  intros H. apply andb_prop in H as [Hc Hs]. rewrite Hc. auto.
Qed.

Lemma strip_spaces (s : str) : forallb isspace s = true -> strip s = [].
Proof.
  intros H. unfold strip. rewrite lstrip_spaces by assumption. reflexivity.
Qed.

(** [lstrip] removes a prefix of white space and stops at the first
    character that is none. *)
Lemma lstrip_split (s : str) :
  exists p, s = p ++ lstrip s /\ forallb isspace p = true /\
            (forall c, head (lstrip s) = Some c -> isspace c = false).
Proof.
  induction s as [|c s (p & Hs & Hp & Hh)]; simpl.
  - exists []. repeat split; auto. intros c Hc. discriminate.
  - destruct (isspace c) eqn:Hc.
    + exists (c :: p). simpl. rewrite Hc, Hp. repeat split; auto.
      congruence.
    + exists []. simpl. repeat split; auto. intros c' Hc'.
      injection Hc' as <-. assumption.
Qed.

Lemma head_rev {A} (l : list A) : head (rev l) = last l.
Proof. rewrite rev_alt. apply head_reverse. Qed.

Lemma rstrip_split (s : str) :
  exists q, s = rstrip s ++ q /\ forallb isspace q = true /\
            (forall c, last (rstrip s) = Some c -> isspace c = false).
Proof.
  unfold rstrip. destruct (lstrip_split (rev s)) as (p & Hs & Hp & Hh).
  exists (rev p). split; [|split].
  - rewrite <- rev_app_distr, <- Hs, rev_involutive. reflexivity.
  - rewrite forallb_forall in *. intros c Hc. apply Hp.
    apply in_rev. assumption.
  - intros c Hc. apply Hh. rewrite <- Hc.
    rewrite <- (rev_involutive (lstrip (rev s))) at 1.
    rewrite head_rev. reflexivity.
Qed.

(** [strip] is the text between a white prefix and a white suffix, and
    neither begins nor ends with white space. *)
Lemma strip_split (s : str) :
  exists p q, s = p ++ strip s ++ q /\
    forallb isspace p = true /\ forallb isspace q = true /\
    (forall c, head (strip s) = Some c -> isspace c = false) /\
    (forall c, last (strip s) = Some c -> isspace c = false).
Proof.
  unfold strip.
  destruct (lstrip_split s) as (p & Hs & Hp & Hh).
  destruct (rstrip_split (lstrip s)) as (q & Ht & Hq & Hl).
  exists p, q. repeat split; auto.
  - rewrite <- Ht. assumption.
  - intros c Hc. apply Hh. rewrite Ht.
    destruct (rstrip (lstrip s)); [discriminate | assumption].
Qed.

(** ** The Result Store *)

Lemma store_get_set (now now' ex : Z) (k v : str) (m : gmap str entry) :
  store_get now' (store_set now k v ex m) k
  = if now' <=? now + 1000 * ex then Some v else None.
Proof.
  unfold store_get, store_set. rewrite lookup_insert_eq. reflexivity.
Qed.

Lemma store_get_set_ne (now now' ex : Z) (k k' v : str) (m : gmap str entry) :
  k <> k' -> store_get now' (store_set now k v ex m) k' = store_get now' m k'.
Proof.
  intros Hk. unfold store_get, store_set.
  rewrite lookup_insert_ne by assumption. reflexivity.
Qed.

Lemma store_get_delete (now : Z) (k : str) (m : gmap str entry) :
  store_get now (store_delete k m) k = None.
Proof.
  unfold store_get, store_delete. rewrite lookup_delete_eq. reflexivity.
Qed.

Lemma store_get_delete_ne (now : Z) (k k' : str) (m : gmap str entry) :
  k <> k' -> store_get now (store_delete k m) k' = store_get now m k'.
Proof.
  intros Hk. unfold store_get, store_delete.
  rewrite lookup_delete_ne by assumption. reflexivity.
Qed.

Lemma result_key_inj (a b : str) : result_key a = result_key b -> a = b.
Proof. unfold result_key. apply app_inv_head. Qed.

Lemma result_key_ne (a b : str) : a <> b -> result_key a <> result_key b.
Proof. intros H E. apply H, result_key_inj, E. Qed.

(** ** Polling, case by case *)

(** A live, non-empty entry is returned and deleted. *)
Lemma get_job_result_complete (job_id : str) (w : World) (c : char) (v : str) :
  store_get (clock w) (redis w) (result_key job_id) = Some (c :: v) ->
  get_job_result job_id w
  = (Ok (complete (c :: v)),
     log (EvDelete (result_key job_id))
       (with_redis (store_delete (result_key job_id))
          (log (EvGet (result_key job_id)) w))).
Proof.
  intros H. unfold get_job_result, bind, redis_get. simpl. rewrite H.
  reflexivity.
Qed.

(** Anything else is reported pending and nothing is deleted. *)
Lemma get_job_result_pending (job_id : str) (w : World) :
  truthy (store_get (clock w) (redis w) (result_key job_id)) = false ->
  get_job_result job_id w = (Ok pending, log (EvGet (result_key job_id)) w).
Proof.
  intros H. unfold get_job_result, bind, redis_get. simpl. rewrite H.
  reflexivity.
Qed.

Lemma get_job_result_cases (job_id : str) (w : World) :
  (exists c v,
     store_get (clock w) (redis w) (result_key job_id) = Some (c :: v) /\
     get_job_result job_id w
     = (Ok (complete (c :: v)),
        log (EvDelete (result_key job_id))
          (with_redis (store_delete (result_key job_id))
             (log (EvGet (result_key job_id)) w))))
  \/ (truthy (store_get (clock w) (redis w) (result_key job_id)) = false /\
      get_job_result job_id w
      = (Ok pending, log (EvGet (result_key job_id)) w)).
Proof.
  destruct (store_get (clock w) (redis w) (result_key job_id))
    as [[|c v]|] eqn:H.
  - right. split; [reflexivity|].
    apply get_job_result_pending. rewrite H. reflexivity.
  - left. exists c, v. split; [reflexivity|].
    apply get_job_result_complete. assumption.
  - right. split; [reflexivity|].
    apply get_job_result_pending. rewrite H. reflexivity.
Qed.

(** A poll never touches another key, the queue, the sink or the clock. *)
Lemma get_job_result_frame (job_id : str) (w : World) :
  let w' := snd (get_job_result job_id w) in
  clock w' = clock w /\ queue w' = queue w /\
  queue_fault w' = queue_fault w /\ archive w' = archive w /\
  (forall k, k <> result_key job_id -> redis w' !! k = redis w !! k).
Proof.
  destruct (get_job_result_cases job_id w) as [(c & v & _ & E)|[_ E]];
    rewrite E; simpl; repeat split; auto.
  intros k Hk. unfold store_delete. apply lookup_delete_ne. congruence.
Qed.

(** ** One run of a handler *)

(** The two handlers are instances of one contract: whatever the kind, a
    run returns normally, sets [result:{job_id}] once, with 300 seconds to
    live, to the body of its outcome, archives on success only, and
    performs the interactions of [events_of]. *)
Lemma handler_run (k : Kind) (deps : Deps) (job_id : str)
    (item_dict : gmap str (option str)) (w : World) :
  let o := outcome k deps item_dict in
  handler k deps job_id item_dict w
  = (Ok tt,
     MkWorld (clock w)
       (store_set (clock w) (result_key job_id) (body_of o) 300 (redis w))
       (queue w) (queue_fault w)
       (archive w ++ archived_by k item_dict o)
       (trace w ++ events_of k job_id item_dict o)).
Proof.
  destruct w as [t r q f a tr].
  destruct k, deps as [[tm|] [im|] [c|]];
    cbv [handler run_transcript_analysis run_icebreaker_generation outcome
         model_of transcript_model icebreaker_model supabase
         try_except bind generate_content insert redis_set print
         log with_redis with_archive events_of archived_by body_of
         prompt_of table_of row_of name_of
         clock redis queue queue_fault archive trace];
    rewrite ?app_nil_r, <- ?app_assoc; try reflexivity.
  all: try destruct (tm (transcript_prompt item_dict));
       try destruct (im (icebreaker_prompt item_dict));
       cbv beta iota; rewrite ?app_nil_r, <- ?app_assoc; try reflexivity.
  all: destruct (c _ _); cbv beta iota; rewrite ?app_nil_r, <- ?app_assoc; reflexivity.
Qed.

Lemma handler_redis (k : Kind) (deps : Deps) (job_id : str)
    (item_dict : gmap str (option str)) (w : World) :
  redis (snd (handler k deps job_id item_dict w))
  = store_set (clock w) (result_key job_id)
      (body_of (outcome k deps item_dict)) 300 (redis w).
Proof. rewrite handler_run. reflexivity. Qed.

Lemma handler_clock (k : Kind) (deps : Deps) (job_id : str)
    (item_dict : gmap str (option str)) (w : World) :
  clock (snd (handler k deps job_id item_dict w)) = clock w.
Proof. rewrite handler_run. reflexivity. Qed.

(** Polling a run's result [d] milliseconds later: within the time to live
    a non-empty body is delivered. *)
Lemma poll_after_run (k : Kind) (deps : Deps) (job_id : str)
    (item_dict : gmap str (option str)) (w : World) (d : Z) :
  d <= 300000 ->
  body_of (outcome k deps item_dict) <> [] ->
  fst (get_job_result job_id
         (advance d (snd (handler k deps job_id item_dict w))))
  = Ok (complete (body_of (outcome k deps item_dict))).
Proof.
  intros Hd Hb.
  destruct (body_of (outcome k deps item_dict)) as [|c v] eqn:E;
    [congruence|].
  rewrite (get_job_result_complete _ _ c v); [reflexivity|].
  simpl. rewrite handler_redis, handler_clock, store_get_set, E.
  destruct (Z.leb_spec (clock w + d) (clock w + 1000 * 300)); [reflexivity|lia].
Qed.

(** ... and after it nothing is. *)
Lemma poll_after_expiry (k : Kind) (deps : Deps) (job_id : str)
    (item_dict : gmap str (option str)) (w : World) (d : Z) :
  300000 < d ->
  get_job_result job_id (advance d (snd (handler k deps job_id item_dict w)))
  = (Ok pending,
     log (EvGet (result_key job_id))
       (advance d (snd (handler k deps job_id item_dict w)))).
Proof.
  intros Hd. apply get_job_result_pending.
  simpl. rewrite handler_redis, handler_clock, store_get_set.
  destruct (Z.leb_spec (clock w + d) (clock w + 1000 * 300)); [lia|reflexivity].
Qed.

(** Every body of a failed run reads [Error: ...]. *)
Lemma body_of_failed (o : Outcome) :
  failed o = true -> exists msg, body_of o = py "Error: " ++ msg.
Proof.
  destruct o; simpl; intros H; try discriminate.
  - exists (py "Worker not initialized"). reflexivity.
  - eexists. reflexivity.
  - eexists. reflexivity.
Qed.

Lemma body_of_failed_nonempty (o : Outcome) :
  failed o = true -> body_of o <> [].
Proof.
  intros H. destruct (body_of_failed o H) as [msg ->]. discriminate.
Qed.

(** Repeated polls of a key the store does not deliver. *)
Lemma polls_pending (job_id : str) (ds : list Z) (w : World) :
  (forall now, truthy (store_get now (redis w) (result_key job_id)) = false) ->
  Forall (fun r => r = Ok pending) (fst (polls job_id ds w)) /\
  redis (snd (polls job_id ds w)) = redis w.
Proof.
  revert w. induction ds as [|d ds IH]; intros w H; simpl.
  - split; [constructor | reflexivity].
  - rewrite get_job_result_pending by apply H.
    specialize (IH (log (EvGet (result_key job_id)) (advance d w)) H).
    destruct (polls job_id ds _) as [rs w'']. simpl in *.
    destruct IH as [IH1 IH2]. split; [constructor; auto | assumption].
Qed.

(** ** Consume-on-read *)

(** C1, as the code has it: when [result:{job_id}] holds a non-empty body
    that has not expired, the poll returns complete with that body and
    deletes the entry in the same request; every later poll, whenever it
    comes, returns pending. *)
Theorem consume_on_read (job_id : str) (w : World) (e : entry) (ds : list Z) :
  redis w !! result_key job_id = Some e ->
  e_value e <> [] ->
  clock w <= e_expires e ->
  let r1 := fst (get_job_result job_id w) in
  let w1 := snd (get_job_result job_id w) in
  r1 = Ok (complete (e_value e)) /\
  redis w1 = delete (result_key job_id) (redis w) /\
  Forall (fun r => r = Ok pending) (fst (polls job_id ds w1)).
Proof.
  intros He Hv Ht.
  destruct (e_value e) as [|c v] eqn:Ev; [congruence|].
  assert (Hg : store_get (clock w) (redis w) (result_key job_id) = Some (c :: v)).
  { unfold store_get, live. rewrite He, Ev.
    destruct (Z.leb_spec (clock w) (e_expires e)); [reflexivity|lia]. }
  rewrite (get_job_result_complete _ _ _ _ Hg). simpl.
  split; [reflexivity|]. split; [reflexivity|].
  apply polls_pending. intros now. simpl.
  rewrite store_get_delete. reflexivity.
Qed.

(** The same on the result a worker has just written: polled 1.5 seconds
    later, then twice more. *)
Lemma consume_on_read_witness :
  let w := advance 1500
             (snd (run_transcript_analysis (deps_with (Ok (py " Done. ")) None)
                     (py "j1") (transcript_dict acme) world0)) in
  fst (get_job_result (py "j1") w) = Ok (complete (py "Done.")) /\
  redis (snd (get_job_result (py "j1") w))
  = delete (result_key (py "j1")) (redis w) /\
  Forall (fun r => r = Ok pending)
    (fst (polls (py "j1") [10; 400000] (snd (get_job_result (py "j1") w)))).
Proof.
  apply (consume_on_read (py "j1") _ (Entry (py "Done.") 300000) [10; 400000]).
  - vm_compute. reflexivity.
  - simpl. discriminate.
  - vm_compute. discriminate.
Defined.

(** C1 as stated fails: a stored result is not delivered by a poll that
    comes after its 300 seconds, nor, at any time, when its body is empty. *)
Lemma stored_result_not_delivered :
  let late := snd (run_transcript_analysis (deps_with (Ok (py "Done.")) None)
                     (py "j1") (transcript_dict acme) world0) in
  let blank := snd (run_transcript_analysis (deps_with (Ok (py "  ")) None)
                      (py "j2") (transcript_dict acme) world0) in
  (redis late !! result_key (py "j1") = Some (Entry (py "Done.") 300000) /\
   fst (get_job_result (py "j1") (advance 300001 late)) = Ok pending) /\
  (redis blank !! result_key (py "j2") = Some (Entry [] 300000) /\
   fst (get_job_result (py "j2") (advance 1 blank)) = Ok pending).
Proof. vm_compute. repeat split; reflexivity. Qed.

(** ** Job identifiers *)

Lemma hex_length (n : nat) (u : Z) : length (hex n u) = n.
Proof.
  revert u. induction n as [|n IH]; intros u; simpl; [reflexivity|].
  rewrite length_app, IH. simpl. lia.
Qed.

Lemma hexdigit_inj (a b : Z) :
  0 <= a < 16 -> 0 <= b < 16 -> hexdigit a = hexdigit b -> a = b.
Proof.
  unfold hexdigit. intros Ha Hb H.
  destruct (Z.ltb_spec a 10), (Z.ltb_spec b 10);
    apply Z2N.inj in H; lia.
Qed.

Lemma hex_inj (n : nat) (u v : Z) :
  hex n u = hex n v -> u mod 16 ^ Z.of_nat n = v mod 16 ^ Z.of_nat n.
Proof.
  revert u v. induction n as [|n IH]; intros u v H.
  - simpl. rewrite !Z.mod_1_r. reflexivity.
  - simpl in H. apply app_inj_tail in H as [H1 H2].
    apply IH in H1.
    apply hexdigit_inj in H2; try (apply Z.mod_pos_bound; lia).
    rewrite Nat2Z.inj_succ, Z.pow_succ_r by lia.
    rewrite !Z.rem_mul_r by lia. rewrite H1, H2. reflexivity.
Qed.

Lemma ungroup (h : str) :
  length h = 32%nat ->
  let s := take 8 h ++ py "-" ++ take 4 (drop 8 h) ++ py "-"
             ++ take 4 (drop 12 h) ++ py "-" ++ take 4 (drop 16 h)
             ++ py "-" ++ drop 20 h in
  take 8 s ++ take 4 (drop 9 s) ++ take 4 (drop 14 s) ++ take 4 (drop 19 s)
    ++ drop 24 s = h.
Proof.
  intros H.
  do 32 (destruct h as [|? h]; [discriminate H|]).
  destruct h; [reflexivity | discriminate H].
Qed.

Lemma uuid_str_inj (u v : Z) :
  0 <= u < 2 ^ 128 -> 0 <= v < 2 ^ 128 -> uuid_str u = uuid_str v -> u = v.
Proof.
  intros Hu Hv H.
  assert (E : hex 32 u = hex 32 v).
  { rewrite <- (ungroup (hex 32 u)) by apply hex_length.
    rewrite <- (ungroup (hex 32 v)) by apply hex_length.
    unfold uuid_str in H. cbv zeta in *. rewrite H. reflexivity. }
  apply hex_inj in E. change (16 ^ Z.of_nat 32) with (2 ^ 128) in E.
  rewrite !Z.mod_small in E by assumption. assumption.
Qed.

Lemma uuid4_testbit (urandom n : Z) :
  0 <= n ->
  Z.testbit (uuid4 urandom) n
  = match forced n with
    | Some b => b
    | None => Z.testbit (urandom mod 2 ^ 128) n
    end.
Proof.
  intros Hn. unfold uuid4, forced. cbv zeta.
  change (Z.shiftl 0xc000 48) with (Z.lor (2 ^ 62) (2 ^ 63)).
  change (Z.shiftl 0x8000 48) with (2 ^ 63).
  change (Z.shiftl 0xf000 64)
    with (Z.lor (Z.lor (2 ^ 76) (2 ^ 77)) (Z.lor (2 ^ 78) (2 ^ 79))).
  change (Z.shiftl 4 76) with (2 ^ 78).
  repeat first [rewrite Z.lor_spec | rewrite Z.land_spec
               | rewrite Z.lnot_spec by assumption].
  rewrite !Z.pow2_bits_eqb by lia.
  rewrite !(Z.eqb_sym n).
  destruct (Z.eqb_spec 62 n), (Z.eqb_spec 63 n), (Z.eqb_spec 76 n),
    (Z.eqb_spec 77 n), (Z.eqb_spec 78 n), (Z.eqb_spec 79 n);
    try lia; simpl; rewrite ?andb_true_r, ?orb_false_r, ?andb_false_r,
      ?orb_true_r;
    reflexivity.
Qed.

Lemma uuid4_range (urandom : Z) : 0 <= uuid4 urandom < 2 ^ 128.
Proof.
  assert (H0 : 0 <= uuid4 urandom).
  { unfold uuid4. cbv zeta. apply Z.lor_nonneg. split; [|vm_compute; discriminate].
    apply Z.land_nonneg. left. apply Z.lor_nonneg. split; [|vm_compute; discriminate].
    apply Z.land_nonneg. left. apply Z.mod_pos_bound. reflexivity. }
  split; [assumption|].
  rewrite <- (Z.mod_small (uuid4 urandom) (2 ^ 128)); [apply Z.mod_pos_bound; reflexivity|].
  split; [assumption|].
  destruct (Z.eq_dec (uuid4 urandom) 0) as [-> | Hne]; [reflexivity|].
  apply Z.log2_lt_pow2; [lia|].
  destruct (Z.lt_ge_cases (Z.log2 (uuid4 urandom)) 128) as [|Hge]; [assumption|].
  exfalso.
  assert (Hb : Z.testbit (uuid4 urandom) (Z.log2 (uuid4 urandom)) = true)
    by (apply Z.bit_log2; lia).
  rewrite uuid4_testbit in Hb by lia.
  unfold forced in Hb.
  destruct (Z.eqb_spec (Z.log2 (uuid4 urandom)) 63); [lia|].
  destruct (Z.eqb_spec (Z.log2 (uuid4 urandom)) 78); [lia|].
  destruct (Z.eqb_spec (Z.log2 (uuid4 urandom)) 62); [lia|].
  destruct (Z.eqb_spec (Z.log2 (uuid4 urandom)) 76); [lia|].
  destruct (Z.eqb_spec (Z.log2 (uuid4 urandom)) 77); [lia|].
  destruct (Z.eqb_spec (Z.log2 (uuid4 urandom)) 79); [lia|].
  simpl in Hb. rewrite Z.mod_pow2_bits_high in Hb by lia. discriminate.
Qed.

(** Version 4, variant 10. *)
Lemma uuid4_version (urandom : Z) :
  Z.land (Z.shiftr (uuid4 urandom) 76) 0xf = 4
  /\ Z.land (Z.shiftr (uuid4 urandom) 62) 0x3 = 2.
Proof.
  split; apply Z.bits_inj'; intros n Hn;
    rewrite Z.land_spec, Z.shiftr_spec, uuid4_testbit by lia.
  - change 0xf with (Z.ones 4).
    destruct (Z.lt_ge_cases n 4).
    + rewrite Z.ones_spec_low by lia.
      assert (n = 0 \/ n = 1 \/ n = 2 \/ n = 3) as [-> | [-> | [-> | ->]]] by lia;
        reflexivity.
    + rewrite Z.ones_spec_high, andb_false_r by lia.
      symmetry. change 4 with (2 ^ 2). rewrite Z.pow2_bits_eqb by lia.
      apply Z.eqb_neq. lia.
  - change 0x3 with (Z.ones 2).
    destruct (Z.lt_ge_cases n 2).
    + rewrite Z.ones_spec_low by lia.
      assert (n = 0 \/ n = 1) as [-> | ->] by lia; reflexivity.
    + rewrite Z.ones_spec_high, andb_false_r by lia.
      symmetry. change 2 with (2 ^ 1). rewrite Z.pow2_bits_eqb by lia.
      apply Z.eqb_neq. lia.
Qed.

(** Two draws give the same identifier exactly when they agree on the 122
    bits that are not forced. *)
Lemma uuid4_eq_iff (r1 r2 : Z) :
  uuid4 r1 = uuid4 r2 <->
  (forall n, 0 <= n < 128 -> forced n = None ->
             Z.testbit r1 n = Z.testbit r2 n).
Proof.
  split.
  - intros E n Hn Hf.
    assert (H : Z.testbit (uuid4 r1) n = Z.testbit (uuid4 r2) n)
      by (rewrite E; reflexivity).
    rewrite !uuid4_testbit, Hf in H by lia.
    rewrite !Z.mod_pow2_bits_low in H by lia. assumption.
  - intros H. apply Z.bits_inj'. intros n Hn.
    rewrite !uuid4_testbit by assumption.
    destruct (forced n) eqn:Hf; [reflexivity|].
    destruct (Z.lt_ge_cases n 128).
    + rewrite !Z.mod_pow2_bits_low by lia. apply H; [lia | assumption].
    + rewrite !Z.mod_pow2_bits_high by lia. reflexivity.
Qed.

Lemma job_id_eq_iff (r1 r2 : Z) :
  uuid_str (uuid4 r1) = uuid_str (uuid4 r2) <-> uuid4 r1 = uuid4 r2.
Proof.
  split; [|congruence].
  apply uuid_str_inj; apply uuid4_range.
Qed.

(** ** Submission, case by case *)

Lemma submit_accepted (urandom : Z) (s : Submission) (w : World) :
  queue_fault w = None ->
  let job_id := uuid_str (uuid4 urandom) in
  submit urandom s w
  = (Ok (queued job_id),
     log (EvEnqueue (name_of (kind_of s)) job_id)
       (with_queue
          (fun q => q ++ [MkJob (name_of (kind_of s)) job_id (payload_of s)])
          w)).
Proof.
  intros H. destruct s; simpl;
    unfold queue_transcript_analysis, queue_icebreaker_generation,
      try_except, bind, enqueue_job; rewrite H; reflexivity.
Qed.

Lemma submit_refused (urandom : Z) (s : Submission) (w : World) (e : str) :
  queue_fault w = Some e ->
  submit urandom s w
  = (Ok [(py "error", py "Failed to queue job: " ++ e)],
     log (EvEnqueue (name_of (kind_of s)) (uuid_str (uuid4 urandom))) w).
Proof.
  intros H. destruct s; simpl;
    unfold queue_transcript_analysis, queue_icebreaker_generation,
      try_except, bind, enqueue_job; rewrite H; reflexivity.
Qed.

(** ** Failures of a run *)

(** The three ways a run can fail, in the terms of the source. *)
Lemma failed_outcome (k : Kind) (deps : Deps)
    (item_dict : gmap str (option str)) :
  failed (outcome k deps item_dict) = true <->
  (model_of k deps = None \/ supabase deps = None)
  \/ (exists model client e,
        model_of k deps = Some model /\ supabase deps = Some client /\
        model (prompt_of k item_dict) = Raise e)
  \/ (exists model client text e,
        model_of k deps = Some model /\ supabase deps = Some client /\
        model (prompt_of k item_dict) = Ok text /\
        client (table_of k) (row_of k item_dict (strip text)) = Some e).
Proof.
  unfold outcome.
  destruct (model_of k deps) as [model|], (supabase deps) as [client|];
    try (split; [intros _; left; auto | reflexivity]).
  destruct (model (prompt_of k item_dict)) as [text|e] eqn:Hm.
  - destruct (client (table_of k) (row_of k item_dict (strip text)))
      as [e|] eqn:Hc; simpl.
    + split; [|reflexivity]. intros _. right. right.
      exists model, client, text, e. auto.
    + split; [discriminate|].
      intros [[H|H]|[(m & c & e & H1 & H2 & H3)|(m & c & t & e & H1 & H2 & H3 & H4)]];
        try discriminate; congruence.
  - simpl. split; [|reflexivity]. intros _. right. left.
    exists model, client, e. auto.
Qed.

(** A run succeeds exactly when both dependencies are initialized, the
    model returns a text and the sink accepts the row. *)
Lemma succeeded_outcome (k : Kind) (deps : Deps)
    (item_dict : gmap str (option str)) (text : str) :
  outcome k deps item_dict = Succeeded text <->
  exists model client,
    model_of k deps = Some model /\ supabase deps = Some client /\
    model (prompt_of k item_dict) = Ok text /\
    client (table_of k) (row_of k item_dict (strip text)) = None.
Proof.
  unfold outcome.
  destruct (model_of k deps) as [model|], (supabase deps) as [client|];
    try (split; [discriminate | intros (m & c & H1 & H2 & _); discriminate]).
  destruct (model (prompt_of k item_dict)) as [t|e] eqn:Hm.
  - destruct (client (table_of k) (row_of k item_dict (strip t)))
      as [e|] eqn:Hc.
    + split; [discriminate|].
      intros (m & c & H1 & H2 & H3 & H4). congruence.
    + split.
      * intros H. injection H as <-. exists model, client. auto.
      * intros (m & c & H1 & H2 & H3 & H4). congruence.
  - split; [discriminate|].
    intros (m & c & H1 & H2 & H3 & H4). congruence.
Qed.

(** C2: whichever way a run fails (a dependency that is not initialized,
    the generation call raising, the archival insert raising), the handler
    returns normally and leaves [Error: ...] under [result:{job_id}] with
    300 seconds to live, so a poll within that time reports complete with
    the error body. *)
Theorem worker_failure_is_reported (k : Kind) (deps : Deps) (job_id : str)
    (item_dict : gmap str (option str)) (w : World) (d : Z) :
  (model_of k deps = None \/ supabase deps = None)
  \/ (exists model client e,
        model_of k deps = Some model /\ supabase deps = Some client /\
        model (prompt_of k item_dict) = Raise e)
  \/ (exists model client text e,
        model_of k deps = Some model /\ supabase deps = Some client /\
        model (prompt_of k item_dict) = Ok text /\
        client (table_of k) (row_of k item_dict (strip text)) = Some e) ->
  0 <= d <= 300000 ->
  let w' := snd (handler k deps job_id item_dict w) in
  fst (handler k deps job_id item_dict w) = Ok tt /\
  exists msg,
    redis w' !! result_key job_id
    = Some (Entry (py "Error: " ++ msg) (clock w + 1000 * 300)) /\
    filter is_set (drop (length (trace w)) (trace w'))
    = [EvSet (result_key job_id) (py "Error: " ++ msg) 300] /\
    fst (get_job_result job_id (advance d w'))
    = Ok (complete (py "Error: " ++ msg)).
Proof.
  intros Hf Hd. apply failed_outcome in Hf.
  pose proof (poll_after_run k deps job_id item_dict w d (proj2 Hd)
                (body_of_failed_nonempty _ Hf)) as Hp.
  destruct (body_of_failed _ Hf) as [msg Hb].
  cbv zeta. rewrite Hp. rewrite handler_run. cbv zeta. simpl.
  split; [reflexivity|]. exists msg. rewrite Hb.
  split; [apply lookup_insert_eq|]. split; [|reflexivity].
  rewrite drop_app_length.
  destruct (outcome k deps item_dict); try discriminate Hf;
    simpl in Hb |- *; rewrite Hb; reflexivity.
Qed.

(** The generation call fails with a quota error; the poll comes two
    seconds later. *)
Lemma worker_failure_is_reported_witness :
  let deps := deps_with (Raise (py "429 quota exceeded")) None in
  let w' := snd (handler TranscriptAnalysis deps (py "j1")
                   (transcript_dict acme) world0) in
  fst (handler TranscriptAnalysis deps (py "j1") (transcript_dict acme) world0)
  = Ok tt /\
  exists msg,
    redis w' !! result_key (py "j1")
    = Some (Entry (py "Error: " ++ msg) (clock world0 + 1000 * 300)) /\
    filter is_set (drop (length (trace world0)) (trace w'))
    = [EvSet (result_key (py "j1")) (py "Error: " ++ msg) 300] /\
    fst (get_job_result (py "j1") (advance 2000 w'))
    = Ok (complete (py "Error: " ++ msg)).
Proof.
  apply (worker_failure_is_reported TranscriptAnalysis
           (deps_with (Raise (py "429 quota exceeded")) None)
           (py "j1") (transcript_dict acme) world0 2000).
  - right. left.
    exists (fun _ => Raise (py "429 quota exceeded")), (fun _ _ => None),
      (py "429 quota exceeded").
    repeat split; reflexivity.
  - lia.
Defined.

(** ** Order of the archival write and the result write *)

(** C4, as the code has it: every run sets [result:{job_id}] exactly once;
    an archival insert is attempted exactly when both dependencies are
    initialized and the generation call returned a text, and then it comes
    before the result is set, never after.  A run that is not initialized,
    or whose generation call raised, sets the result with no archival
    attempt at all. *)
Theorem archival_precedes_result (k : Kind) (deps : Deps) (job_id : str)
    (item_dict : gmap str (option str)) (w : World) :
  let o := outcome k deps item_dict in
  let w' := snd (handler k deps job_id item_dict w) in
  exists pre post,
    trace w' = trace w ++ pre ++ [EvSet (result_key job_id) (body_of o) 300]
                 ++ post /\
    existsb is_set pre = false /\ existsb is_set post = false /\
    existsb is_insert post = false /\
    (existsb is_insert pre = true <->
     exists model client text,
       model_of k deps = Some model /\ supabase deps = Some client /\
       model (prompt_of k item_dict) = Ok text).
Proof.
  cbv zeta. rewrite handler_run. cbv zeta. simpl.
  unfold outcome.
  destruct (model_of k deps) as [model|] eqn:Hm;
    [destruct (supabase deps) as [client|] eqn:Hc|].
  - destruct (model (prompt_of k item_dict)) as [text|e] eqn:Hg.
    + destruct (client (table_of k) (row_of k item_dict (strip text)))
        as [e|] eqn:Hi; simpl.
      * eexists [_; _; _], []. repeat split; try reflexivity.
        intros _. exists model, client, text. auto.
      * eexists [_; _], [_]. repeat split; try reflexivity.
        intros _. exists model, client, text. auto.
    + simpl. eexists [_; _], []. repeat split; try reflexivity.
      * discriminate.
      * intros (m & c & t & H1 & H2 & H3). congruence.
  - simpl. eexists [_], []. repeat split; try reflexivity.
    + discriminate.
    + intros (m & c & t & H1 & H2 & H3). congruence.
  - simpl. eexists [_], []. repeat split; try reflexivity.
    + discriminate.
    + intros (m & c & t & H1 & H2 & H3). congruence.
Qed.

(** C4 as stated fails: when the generation call raises, the result is set
    and polled as complete although no archival insert was attempted. *)
Lemma result_without_archival_attempt :
  let deps := deps_with (Raise (py "429 quota exceeded")) None in
  let w' := snd (run_transcript_analysis deps (py "j1") (transcript_dict acme)
                   world0) in
  existsb is_insert (trace w') = false /\
  existsb is_set (trace w') = true /\
  archive w' = [] /\
  fst (get_job_result (py "j1") (advance 1000 w'))
  = Ok (complete (py "Error: 429 quota exceeded")).
Proof. vm_compute. repeat split; reflexivity. Qed.

(** ** The shape of a poll response *)



(** ** Lifetime of a result *)

(** C6: every run, whatever its outcome, writes its body under
    [result:{job_id}] in one [SET] with [ex=300], an entry that expires
    300 seconds after the write; a first poll that comes later than that
    returns pending and finds nothing to delete. *)
Theorem result_expires (k : Kind) (deps : Deps) (job_id : str)
    (item_dict : gmap str (option str)) (w : World) (d : Z) :
  300000 < d ->
  let o := outcome k deps item_dict in
  let w' := snd (handler k deps job_id item_dict w) in
  redis w' !! result_key job_id
  = Some (Entry (body_of o) (clock w + 1000 * 300)) /\
  filter is_set (drop (length (trace w)) (trace w'))
  = [EvSet (result_key job_id) (body_of o) 300] /\
  store_get (clock w + d) (redis w') (result_key job_id) = None /\
  fst (get_job_result job_id (advance d w')) = Ok pending /\
  redis (snd (get_job_result job_id (advance d w'))) = redis w'.
Proof.
  intros Hd. cbv zeta.
  rewrite (poll_after_expiry k deps job_id item_dict w d Hd).
  rewrite handler_run. cbv zeta. simpl.
  split; [apply lookup_insert_eq|]. split; [|split; [|split; reflexivity]].
  - rewrite drop_app_length.
    destruct (outcome k deps item_dict); reflexivity.
  - rewrite store_get_set.
    destruct (Z.leb_spec (clock w + d) (clock w + 1000 * 300));
      [lia | reflexivity].
Qed.

(** A successful run, polled for the first time 301 seconds later. *)
Lemma result_expires_witness :
  let deps := deps_with (Ok (py "Done.")) None in
  let w' := snd (handler TranscriptAnalysis deps (py "j1")
                   (transcript_dict acme) world0) in
  redis w' !! result_key (py "j1") = Some (Entry (py "Done.") 300000) /\
  fst (get_job_result (py "j1") (advance 301000 w')) = Ok pending.
Proof.
  pose proof (result_expires TranscriptAnalysis
                (deps_with (Ok (py "Done.")) None) (py "j1")
                (transcript_dict acme) world0 301000 ltac:(lia)) as H.
  cbv zeta in H. destruct H as (H1 & _ & _ & H2 & _).
  split; [exact H1 | exact H2].
Defined.

(** ** Submission *)

(** C3, as the code has it: an accepted submission answers
    [{status: queued, job_id}] where [job_id] is the text of a version-4
    UUID made from the sixteen random bytes, enqueues the job under that
    identifier and neither reads nor writes the Result Store; the
    identifier is not checked against the store, so the poll that follows
    returns pending exactly when the store delivers nothing under
    [result:{job_id}], in particular when it has no such key. *)
Theorem submit_then_poll (urandom : Z) (s : Submission) (w : World) :
  queue_fault w = None ->
  let job_id := uuid_str (uuid4 urandom) in
  let w1 := snd (submit urandom s w) in
  fst (submit urandom s w) = Ok (queued job_id) /\
  (0 <= uuid4 urandom < 2 ^ 128 /\
   Z.land (Z.shiftr (uuid4 urandom) 76) 0xf = 4 /\
   Z.land (Z.shiftr (uuid4 urandom) 62) 0x3 = 2) /\
  queue w1 = queue w ++ [MkJob (name_of (kind_of s)) job_id (payload_of s)] /\
  redis w1 = redis w /\ clock w1 = clock w /\
  (redis w !! result_key job_id = None ->
   fst (get_job_result job_id w1) = Ok pending) /\
  (fst (get_job_result job_id w1) = Ok pending <->
   truthy (store_get (clock w) (redis w) (result_key job_id)) = false).
Proof.
  intros Hq. cbv zeta. rewrite (submit_accepted urandom s w Hq). simpl.
  split; [reflexivity|].
  split; [split; [apply uuid4_range | apply uuid4_version]|].
  split; [reflexivity|]. split; [reflexivity|]. split; [reflexivity|].
  set (job_id := uuid_str (uuid4 urandom)).
  set (w1 := log _ _).
  assert (Hiff : fst (get_job_result job_id w1) = Ok pending <->
                 truthy (store_get (clock w) (redis w) (result_key job_id))
                 = false).
  { destruct (get_job_result_cases job_id w1) as [(c & v & Hg & E)|[Hg E]];
      rewrite E; simpl in *.
    - rewrite Hg. split; discriminate.
    - rewrite Hg. split; reflexivity. }
  split; [|exact Hiff].
  intros Hn. apply Hiff. unfold store_get. rewrite Hn. reflexivity.
Qed.

(** The first submission a fresh deployment receives. *)
Lemma submit_then_poll_witness :
  let w1 := snd (submit 0 (Transcript acme) world0) in
  fst (submit 0 (Transcript acme) world0)
  = Ok (queued (py "00000000-0000-4000-8000-000000000000")) /\
  fst (get_job_result (py "00000000-0000-4000-8000-000000000000") w1)
  = Ok pending.
Proof.
  pose proof (submit_then_poll 0 (Transcript acme) world0 eq_refl) as H.
  cbv zeta in H. destruct H as (H1 & _ & _ & _ & _ & H2 & _).
  split; [exact H1 | exact (H2 eq_refl)].
Defined.

(** C3 as stated fails: nothing compares the identifier with the store.
    A first job is submitted and processed; a second submission whose
    random bytes differ from the first in bit 78 only is given the same
    identifier, and the poll that follows it returns the first job's
    result instead of pending. *)
Lemma submitted_job_id_already_in_store :
  let job_id := py "00000000-0000-4000-8000-000000000000" in
  let w1 := snd (submit 0 (Transcript acme) world0) in
  let w2 := snd (run_transcript_analysis (deps_with (Ok (py "Done.")) None)
                   job_id (transcript_dict acme) w1) in
  let w3 := snd (submit (2 ^ 78) (Transcript acme) (advance 1000 w2)) in
  fst (submit 0 (Transcript acme) world0) = Ok (queued job_id) /\
  redis w2 !! result_key job_id = Some (Entry (py "Done.") 300000) /\
  fst (submit (2 ^ 78) (Transcript acme) (advance 1000 w2))
  = Ok (queued job_id) /\
  fst (get_job_result job_id w3) = Ok (complete (py "Done.")).
Proof. vm_compute. repeat split; reflexivity. Qed.

(** ** Independence of jobs *)

(** Neither a run nor a poll for [a] changes what a poll for another
    identifier answers. *)
Lemma poll_other_job (a b : str) (w w' : World) :
  a <> b ->
  clock w' = clock w ->
  (forall key, key <> result_key a -> redis w' !! key = redis w !! key) ->
  fst (get_job_result b w') = fst (get_job_result b w).
Proof.
  intros Hab Hc Hr.
  assert (Hg : store_get (clock w') (redis w') (result_key b)
               = store_get (clock w) (redis w) (result_key b)).
  { unfold store_get. rewrite Hc, Hr; [reflexivity|].
    apply result_key_ne. congruence. }
  destruct (get_job_result_cases b w) as [(c & v & Hw & E)|[Hw E]];
    rewrite E; simpl.
  - rewrite (get_job_result_complete b w' c v); [reflexivity|].
    rewrite Hg. exact Hw.
  - rewrite get_job_result_pending; [reflexivity|].
    rewrite Hg. exact Hw.
Qed.

(** C8, as the code has it.  Processing job [a] or polling [a] changes no
    key of the Result Store other than [result:{a}], and so leaves the
    answer to a poll for any other identifier [b] as it was.  Two
    submissions, also of the same payload, get identifiers that depend on
    their random bytes only: the identifiers are equal exactly when the
    two draws agree on the 122 bits [uuid4] keeps, and distinct
    otherwise. *)
Theorem job_independence :
  (forall (k : Kind) (deps : Deps) (a b : str)
          (item_dict : gmap str (option str)) (w : World) (d : Z),
     a <> b ->
     let wa := snd (handler k deps a item_dict w) in
     let wp := snd (get_job_result a w) in
     (forall key, key <> result_key a -> redis wa !! key = redis w !! key) /\
     (forall key, key <> result_key a -> redis wp !! key = redis w !! key) /\
     fst (get_job_result b (advance d wa))
     = fst (get_job_result b (advance d w)) /\
     fst (get_job_result b (advance d wp))
     = fst (get_job_result b (advance d w))) /\
  (forall (r1 r2 : Z) (s : Submission) (w : World),
     queue_fault w = None ->
     let w1 := snd (submit r1 s w) in
     fst (submit r1 s w) = Ok (queued (uuid_str (uuid4 r1))) /\
     fst (submit r2 s w1) = Ok (queued (uuid_str (uuid4 r2))) /\
     (uuid_str (uuid4 r1) = uuid_str (uuid4 r2) <->
      forall n, 0 <= n < 128 -> forced n = None ->
                Z.testbit r1 n = Z.testbit r2 n)).
Proof.
  split.
  - intros k deps a b item_dict w d Hab. cbv zeta.
    assert (Ha : forall key, key <> result_key a ->
                 redis (snd (handler k deps a item_dict w)) !! key
                 = redis w !! key).
    { intros key Hk. rewrite handler_redis. unfold store_set.
      apply lookup_insert_ne. congruence. }
    assert (Hp : forall key, key <> result_key a ->
                 redis (snd (get_job_result a w)) !! key = redis w !! key).
    { apply get_job_result_frame. }
    split; [exact Ha|]. split; [exact Hp|]. split.
    + apply (poll_other_job a b); [assumption | |exact Ha].
      simpl. rewrite handler_clock. reflexivity.
    + apply (poll_other_job a b); [assumption | |exact Hp].
      simpl. f_equal. apply get_job_result_frame.
  - intros r1 r2 s w Hq. cbv zeta.
    rewrite (submit_accepted r1 s w Hq). simpl.
    rewrite submit_accepted by exact Hq. simpl.
    split; [reflexivity|]. split; [reflexivity|].
    rewrite job_id_eq_iff. apply uuid4_eq_iff.
Qed.

(** Job [j2] is processed and polled while the result of [j1] waits. *)
Lemma job_independence_witness :
  let deps := deps_with (Ok (py "Done.")) None in
  let w := snd (handler TranscriptAnalysis deps (py "j1")
                  (transcript_dict acme) world0) in
  fst (get_job_result (py "j1")
         (advance 5 (snd (handler TranscriptAnalysis deps (py "j2")
                            (transcript_dict acme) w))))
  = fst (get_job_result (py "j1") (advance 5 w)) /\
  fst (get_job_result (py "j1") (advance 5 (snd (get_job_result (py "j2") w))))
  = fst (get_job_result (py "j1") (advance 5 w)) /\
  fst (submit 1 (Transcript acme) world0) = Ok (queued (uuid_str (uuid4 1))).
Proof.
  destruct job_independence as [H1 H2].
  pose proof (H1 TranscriptAnalysis (deps_with (Ok (py "Done.")) None)
                (py "j2") (py "j1") (transcript_dict acme)
                (snd (handler TranscriptAnalysis
                        (deps_with (Ok (py "Done.")) None) (py "j1")
                        (transcript_dict acme) world0))
                5 ltac:(discriminate)) as Ha.
  pose proof (H2 1 2 (Transcript acme) world0 eq_refl) as Hb.
  cbv zeta in Ha, Hb.
  destruct Ha as (_ & _ & Ha1 & Ha2). destruct Hb as (Hb & _).
  split; [exact Ha1 | split; [exact Ha2 | exact Hb]].
Defined.

(** C8 as stated fails in its second half: two submissions of the same
    payload whose random bytes differ (in bit 78 only) are given one and
    the same identifier. *)
Lemma same_payload_same_job_id :
  let w1 := snd (submit 0 (Transcript acme) world0) in
  0 <> 2 ^ 78 /\
  fst (submit 0 (Transcript acme) world0)
  = Ok (queued (py "00000000-0000-4000-8000-000000000000")) /\
  fst (submit (2 ^ 78) (Transcript acme) w1)
  = Ok (queued (py "00000000-0000-4000-8000-000000000000")) /\
  map j_job_id (queue (snd (submit (2 ^ 78) (Transcript acme) w1)))
  = [py "00000000-0000-4000-8000-000000000000";
     py "00000000-0000-4000-8000-000000000000"].
Proof. vm_compute. repeat split; try reflexivity. discriminate. Qed.

(** ** Empty results *)

(** C9: when the text under [result:{job_id}] is empty, a poll returns
    pending and deletes nothing, so does every further poll, whenever it
    comes; and that is the text a run stores when the generation call
    returns white space only and the row is archived. *)
Theorem empty_result_stays_pending :
  (forall (job_id : str) (w : World) (e : entry) (ds : list Z),
     redis w !! result_key job_id = Some e ->
     e_value e = [] ->
     fst (get_job_result job_id w) = Ok pending /\
     redis (snd (get_job_result job_id w)) = redis w /\
     Forall (fun r => r = Ok pending) (fst (polls job_id ds w)) /\
     redis (snd (polls job_id ds w)) = redis w) /\
  (forall (k : Kind) (deps : Deps) (job_id : str)
          (item_dict : gmap str (option str)) (w : World) (text : str),
     outcome k deps item_dict = Succeeded text ->
     forallb isspace text = true ->
     redis (snd (handler k deps job_id item_dict w)) !! result_key job_id
     = Some (Entry [] (clock w + 1000 * 300))).
Proof.
  split.
  - intros job_id w e ds He Hv.
    assert (H : forall now,
              truthy (store_get now (redis w) (result_key job_id)) = false).
    { intros now. unfold store_get. rewrite He, Hv.
      destruct (live now e); reflexivity. }
    rewrite get_job_result_pending by apply H. simpl.
    split; [reflexivity|]. split; [reflexivity|].
    apply polls_pending, H.
  - intros k deps job_id item_dict w text Ho Hs.
    rewrite handler_redis, Ho. simpl. rewrite strip_spaces by assumption.
    apply lookup_insert_eq.
Qed.

(** The model answers with a blank line; the result is polled after one,
    two and three seconds. *)
Lemma empty_result_stays_pending_witness :
  let w := snd (handler TranscriptAnalysis
                  (deps_with (Ok (py " " ++ nl)) None) (py "j1")
                  (transcript_dict acme) world0) in
  redis w !! result_key (py "j1") = Some (Entry [] 300000) /\
  Forall (fun r => r = Ok pending)
    (fst (polls (py "j1") [1000; 1000; 1000] w)) /\
  redis (snd (polls (py "j1") [1000; 1000; 1000] w)) = redis w.
Proof.
  destruct empty_result_stays_pending as [H1 H2].
  pose proof (H2 TranscriptAnalysis (deps_with (Ok (py " " ++ nl)) None)
                (py "j1") (transcript_dict acme) world0 (py " " ++ nl)
                eq_refl eq_refl) as Hw.
  change (clock world0 + 1000 * 300) with 300000 in Hw.
  destruct (H1 (py "j1") _ _ [1000; 1000; 1000] Hw eq_refl)
    as (_ & _ & Hp & Hr).
  split; [exact Hw | split; [exact Hp | exact Hr]].
Defined.

(** ** One text on the success path *)

(** C10: when both dependencies are initialized, the model returns [text]
    and the sink accepts the row, the run stores [strip text] under
    [result:{job_id}], archives one row whose [analysis] is [strip text],
    and a poll that returns complete returns [strip text]; that text is
    [text] without a white prefix and a white suffix, and it neither
    begins nor ends with white space. *)
Theorem one_text_on_success (k : Kind) (deps : Deps) (job_id : str)
    (item_dict : gmap str (option str)) (w : World) (text : str) (d : Z)
    (model : Model) (client : Client) :
  model_of k deps = Some model -> supabase deps = Some client ->
  model (prompt_of k item_dict) = Ok text ->
  client (table_of k) (row_of k item_dict (strip text)) = None ->
  let output := strip text in
  let w' := snd (handler k deps job_id item_dict w) in
  (exists ex, redis w' !! result_key job_id = Some (Entry output ex)) /\
  (exists row, archive w' = archive w ++ [(table_of k, row)] /\
               field (py "analysis") row = Some (Some output)) /\
  (forall body, fst (get_job_result job_id (advance d w'))
                = Ok (complete body) -> body = output) /\
  (0 <= d <= 300000 -> output <> [] ->
   fst (get_job_result job_id (advance d w')) = Ok (complete output)) /\
  (exists p q, text = p ++ output ++ q /\
     forallb isspace p = true /\ forallb isspace q = true /\
     (forall c, head output = Some c -> isspace c = false) /\
     (forall c, last output = Some c -> isspace c = false)).
Proof.
  intros Hm Hc Hg Hi. cbv zeta.
  assert (Ho : outcome k deps item_dict = Succeeded text).
  { apply succeeded_outcome. exists model, client. auto. }
  split; [|split; [|split; [|split]]].
  - rewrite handler_redis, Ho. simpl. eexists. apply lookup_insert_eq.
  - rewrite handler_run, Ho. simpl. eexists. split; [reflexivity|].
    destruct k; reflexivity.
  - intros body Hb.
    destruct (get_job_result_cases job_id
                (advance d (snd (handler k deps job_id item_dict w))))
      as [(c & v & Hs & E)|[_ E]]; rewrite E in Hb; simpl in Hb;
      [|discriminate].
    simpl in Hs. rewrite handler_redis, handler_clock, store_get_set, Ho in Hs.
    simpl in Hs.
    destruct (clock w + d <=? clock w + 1000 * 300); [|discriminate].
    injection Hb as <-. congruence.
  - intros Hd Hne.
    pose proof (poll_after_run k deps job_id item_dict w d (proj2 Hd)) as Hp.
    rewrite Ho in Hp. apply Hp. exact Hne.
  - apply strip_split.
Qed.

(** The model pads its answer with a space and a newline; the poll comes
    three seconds after the run. *)
Lemma one_text_on_success_witness :
  let deps := deps_with (Ok (py " Done." ++ nl)) None in
  let w' := snd (handler TranscriptAnalysis deps (py "j1")
                   (transcript_dict acme) world0) in
  (exists ex, redis w' !! result_key (py "j1") = Some (Entry (py "Done.") ex)) /\
  (exists row, archive w' = [(py "meeting_analysis", row)] /\
               field (py "analysis") row = Some (Some (py "Done."))) /\
  fst (get_job_result (py "j1") (advance 3000 w')) = Ok (complete (py "Done.")).
Proof.
  pose proof (one_text_on_success TranscriptAnalysis
                (deps_with (Ok (py " Done." ++ nl)) None) (py "j1")
                (transcript_dict acme) world0 (py " Done." ++ nl) 3000
                (fun _ => Ok (py " Done." ++ nl)) (fun _ _ => None)
                eq_refl eq_refl eq_refl eq_refl) as H.
  cbv zeta in H. destruct H as (H1 & H2 & _ & H3 & _).
  split; [exact H1 | split; [exact H2|]].
  apply H3; [lia | discriminate].
Defined.

(** ** More on [strip] *)

Lemma lstrip_id (s : str) :
  (forall c, head s = Some c -> isspace c = false) -> lstrip s = s.
Proof.
  destruct s as [|c s]; simpl; [reflexivity|].
  intros H. rewrite (H c eq_refl). reflexivity.
Qed.

Lemma rstrip_id (s : str) :
  (forall c, last s = Some c -> isspace c = false) -> rstrip s = s.
Proof.
  intros H. unfold rstrip. rewrite lstrip_id.
  - apply rev_involutive.
  - intros c Hc. apply H. rewrite <- head_rev. assumption.
Qed.

(** A text that neither begins nor ends with white space is left as it
    is. *)
Lemma strip_id (s : str) :
  (forall c, head s = Some c -> isspace c = false) ->
  (forall c, last s = Some c -> isspace c = false) ->
  strip s = s.
Proof.
  intros Hh Hl. unfold strip. rewrite lstrip_id by assumption.
  apply rstrip_id. assumption.
Qed.

(** Stripping twice is stripping once. *)
Theorem strip_idempotent (s : str) : strip (strip s) = strip s.
Proof.
  destruct (strip_split s) as (p & q & _ & _ & _ & Hh & Hl).
  apply strip_id; assumption.
Qed.

(** [strip] gives the empty text exactly for a text of white space only
    (the empty text included). *)
Lemma strip_empty_iff (s : str) :
  strip s = [] <-> forallb isspace s = true.
Proof.
  split; [|apply strip_spaces].
  intros E. destruct (strip_split s) as (p & q & Hs & Hp & Hq & _).
  rewrite E in Hs. subst s. simpl. rewrite forallb_app.
  apply andb_true_intro. split; assumption.
Qed.

(** ** What a handler reads of its dictionary *)

Ltac py_ne := let E := fresh in intros E; vm_compute in E; discriminate E.

(** A handler reads the keys of its kind and no other: two dictionaries
    that agree on them give the same run. *)
Theorem handler_reads_own_keys (k : Kind) (deps : Deps) (job_id : str)
    (d1 d2 : gmap str (option str)) (w : World) :
  Forall (fun key => get d1 key = get d2 key) (keys_of k) ->
  handler k deps job_id d1 w = handler k deps job_id d2 w.
Proof.
  intros H.
  assert (Hp : prompt_of k d1 = prompt_of k d2).
  { destruct k; simpl in H;
      repeat match goal with
             | H : Forall _ (_ :: _) |- _ =>
                 apply Forall_cons in H as [? H]
             end;
      unfold prompt_of, transcript_prompt, icebreaker_prompt; congruence. }
  assert (Hr : forall out, row_of k d1 out = row_of k d2 out).
  { intros out. destruct k; simpl in H;
      repeat match goal with
             | H : Forall _ (_ :: _) |- _ =>
                 apply Forall_cons in H as [? H]
             end;
      unfold row_of; congruence. }
  assert (Ho : outcome k deps d1 = outcome k deps d2).
  { unfold outcome. rewrite Hp.
    destruct (model_of k deps), (supabase deps); try reflexivity.
    destruct (m (prompt_of k d2)); [rewrite Hr|]; reflexivity. }
  rewrite !handler_run. cbv zeta. rewrite Ho. f_equal. f_equal.
  - destruct (outcome k deps d2); simpl; rewrite ?Hr; reflexivity.
  - destruct (outcome k deps d2); simpl; rewrite ?Hr, ?Hp; reflexivity.
Qed.

(** A transcript job carrying a key the handler does not know. *)
Lemma handler_reads_own_keys_witness :
  handler TranscriptAnalysis (deps_with (Ok (py "Done.")) None) (py "j1")
    (<[py "extra" := Some (py "x")]> (transcript_dict acme)) world0
  = handler TranscriptAnalysis (deps_with (Ok (py "Done.")) None) (py "j1")
      (transcript_dict acme) world0.
Proof.
  apply handler_reads_own_keys. simpl.
  repeat (apply Forall_cons; split;
          [unfold get; rewrite lookup_insert_ne by py_ne; reflexivity|]).
  apply Forall_nil. exact I.
Defined.

(** ** Delivery of a successful run *)

(** On the success path the poll within 300 seconds delivers the stripped
    text exactly when the model's text has a character that is not white
    space; a text of white space only leaves a result that polls as
    pending. *)
Theorem success_delivered_iff (k : Kind) (deps : Deps) (job_id : str)
    (item_dict : gmap str (option str)) (w : World) (text : str) (d : Z) :
  outcome k deps item_dict = Succeeded text ->
  0 <= d <= 300000 ->
  let r := fst (get_job_result job_id
                  (advance d (snd (handler k deps job_id item_dict w)))) in
  (forallb isspace text = false -> r = Ok (complete (strip text))) /\
  (forallb isspace text = true -> r = Ok pending).
Proof.
  intros Ho Hd. cbv zeta. split; intros Hs.
  - pose proof (poll_after_run k deps job_id item_dict w d (proj2 Hd)) as Hp.
    rewrite Ho in Hp. apply Hp. simpl. intros E.
    apply strip_empty_iff in E. congruence.
  - rewrite get_job_result_pending; [reflexivity|].
    simpl. rewrite handler_redis, handler_clock, store_get_set, Ho. simpl.
    rewrite strip_spaces by assumption.
    destruct (_ <=? _); reflexivity.
Qed.

Lemma success_delivered_iff_witness :
  fst (get_job_result (py "j1")
         (advance 10 (snd (handler IcebreakerGeneration
                             (deps_with (Ok (py "  Hi!")) None) (py "j1")
                             (icebreaker_dict
                                (MkIcebreakerInput (py "bio") (py "deck")))
                             world0))))
  = Ok (complete (strip (py "  Hi!"))).
Proof.
  apply (success_delivered_iff IcebreakerGeneration
           (deps_with (Ok (py "  Hi!")) None) (py "j1")
           (icebreaker_dict (MkIcebreakerInput (py "bio") (py "deck")))
           world0 (py "  Hi!") 10 eq_refl); [lia | reflexivity].
Defined.

(** ** What a run leaves alone *)

(** A run never touches the queue or the clock, never reads or deletes a
    key of the store and never enqueues; every key it sets begins with
    [result:]; and a run that fails adds nothing to the archival sink,
    not even when the text had been generated. *)
Theorem handler_frame (k : Kind) (deps : Deps) (job_id : str)
    (item_dict : gmap str (option str)) (w : World) :
  let w' := snd (handler k deps job_id item_dict w) in
  let evs := drop (length (trace w)) (trace w') in
  queue w' = queue w /\ queue_fault w' = queue_fault w /\
  clock w' = clock w /\
  trace w' = trace w ++ evs /\
  existsb is_store_read evs = false /\
  Forall (has_prefix (py "result:")) evs /\
  (failed (outcome k deps item_dict) = true -> archive w' = archive w).
Proof.
  cbv zeta. rewrite handler_run. cbv zeta. simpl.
  rewrite drop_app_length.
  repeat (split; [reflexivity|]).
  split; [destruct (outcome k deps item_dict); reflexivity|].
  split.
  - destruct (outcome k deps item_dict); simpl;
      repeat (apply Forall_cons; split; [simpl; eauto|]);
      apply Forall_nil; exact I.
  - destruct (outcome k deps item_dict); simpl; try discriminate;
      intros _; apply app_nil_r.
Qed.

(** The sink rejects the row of a generated text. *)
Lemma handler_frame_witness :
  archive (snd (handler TranscriptAnalysis
                  (deps_with (Ok (py "Done.")) (Some (py "503")))
                  (py "j1") (transcript_dict acme) world0))
  = archive world0.
Proof.
  apply (handler_frame TranscriptAnalysis
           (deps_with (Ok (py "Done.")) (Some (py "503")))
           (py "j1") (transcript_dict acme) world0).
  reflexivity.
Defined.

(** ** A job that runs again *)

(** When a job is run a second time (the queue delivers at least once),
    the second run's body replaces the first under [result:{job_id}] and
    its 300 seconds start anew; the store is as if the first run, and a
    poll that consumed its result in between, had never been. *)
Theorem rerun_replaces_result (k1 k2 : Kind) (deps1 deps2 : Deps)
    (job_id : str) (item1 item2 : gmap str (option str)) (w : World)
    (d1 d2 : Z) :
  let w1 := snd (handler k1 deps1 job_id item1 w) in
  let polled := snd (get_job_result job_id (advance d1 w1)) in
  let body2 := body_of (outcome k2 deps2 item2) in
  redis (snd (handler k2 deps2 job_id item2 (advance d1 w1)))
  = redis (snd (handler k2 deps2 job_id item2 (advance d1 w))) /\
  redis (snd (handler k2 deps2 job_id item2 (advance d2 polled)))
  = redis (snd (handler k2 deps2 job_id item2 (advance (d1 + d2) w))) /\
  redis (snd (handler k2 deps2 job_id item2 (advance d2 polled)))
    !! result_key job_id
  = Some (Entry body2 (clock w + d1 + d2 + 1000 * 300)).
Proof.
  cbv zeta.
  assert (Hc : clock (snd (get_job_result job_id
                 (advance d1 (snd (handler k1 deps1 job_id item1 w)))))
               = clock w + d1).
  { rewrite (proj1 (get_job_result_frame job_id _)). simpl.
    rewrite handler_clock. reflexivity. }
  assert (Hr : <[result_key job_id :=
                   Entry (body_of (outcome k2 deps2 item2))
                     (clock w + d1 + d2 + 1000 * 300)]>
                 (redis (snd (get_job_result job_id
                    (advance d1 (snd (handler k1 deps1 job_id item1 w))))))
               = <[result_key job_id :=
                     Entry (body_of (outcome k2 deps2 item2))
                       (clock w + d1 + d2 + 1000 * 300)]> (redis w)).
  { apply map_eq. intros key.
    destruct (decide (key = result_key job_id)) as [->|Hk].
    - rewrite !lookup_insert_eq. reflexivity.
    - rewrite !lookup_insert_ne by congruence.
      rewrite (proj2 (proj2 (proj2 (proj2 (get_job_result_frame job_id _)))))
        by assumption.
      simpl. rewrite handler_redis. unfold store_set.
      apply lookup_insert_ne. congruence. }
  split; [|split].
  - rewrite !handler_redis. simpl. rewrite handler_redis, handler_clock.
    unfold store_set. apply insert_insert_eq.
  - rewrite !handler_redis. simpl. rewrite Hc. unfold store_set.
    rewrite Z.add_assoc. exact Hr.
  - rewrite handler_redis. simpl. rewrite Hc. unfold store_set.
    apply lookup_insert_eq.
Qed.

(** ** What a poll does to the store *)

(** A poll reads [result:{job_id}] once and does nothing else to the
    store, except that it deletes that same key, right after the read,
    when it returns complete; it cannot reach a key that does not begin
    with [result:], whatever the caller passes as [job_id]. *)
Theorem poll_interactions (job_id : str) (w : World) :
  let r := fst (get_job_result job_id w) in
  let w' := snd (get_job_result job_id w) in
  let key := py "result:" ++ job_id in
  (r = Ok pending /\ trace w' = trace w ++ [EvGet key] /\
   redis w' = redis w)
  \/ (exists text, r = Ok (complete text) /\
        trace w' = trace w ++ [EvGet key; EvDelete key] /\
        redis w' = delete key (redis w)).
Proof.
  cbv zeta.
  destruct (get_job_result_cases job_id w) as [(c & v & _ & E)|[_ E]];
    rewrite E; simpl.
  - right. exists (c :: v). rewrite <- app_assoc. auto.
  - left. auto.
Qed.

(** ** After the time to live *)

(** Once the entry under [result:{job_id}] has expired, no poll delivers
    it, however many follow and whenever they come. *)
Theorem expired_result_is_gone (job_id : str) (w : World) (e : entry)
    (ds : list Z) :
  redis w !! result_key job_id = Some e ->
  e_expires e < clock w ->
  Forall (fun d => 0 <= d) ds ->
  Forall (fun r => r = Ok pending) (fst (polls job_id ds w)) /\
  redis (snd (polls job_id ds w)) = redis w.
Proof.
  revert w. induction ds as [|d ds IH]; intros w He Ht Hds; simpl.
  - split; [constructor | reflexivity].
  - apply Forall_cons in Hds as [Hd Hds].
    rewrite get_job_result_pending.
    + specialize (IH (log (EvGet (result_key job_id)) (advance d w))).
      simpl in IH. specialize (IH He ltac:(lia) Hds).
      destruct (polls job_id ds _) as [rs w'']. simpl in *.
      destruct IH as [IH1 IH2]. split; [constructor; auto | assumption].
    + simpl. unfold store_get, live. rewrite He.
      destruct (Z.leb_spec (clock w + d) (e_expires e)); [lia | reflexivity].
Qed.

(** A result written at instant 0 and first asked for 301 seconds later,
    then again. *)
Lemma expired_result_is_gone_witness :
  let w := advance 301000
             (snd (handler TranscriptAnalysis (deps_with (Ok (py "Done.")) None)
                     (py "j1") (transcript_dict acme) world0)) in
  Forall (fun r => r = Ok pending) (fst (polls (py "j1") [0; 5] w)).
Proof.
  refine (proj1 (expired_result_is_gone (py "j1") _
                   (Entry (py "Done.") 300000) [0; 5] _ _ _)).
  - vm_compute. reflexivity.
  - vm_compute. reflexivity.
  - repeat constructor; discriminate.
Defined.

(** ** The text of a job identifier *)

Lemma hexdigit_is_hex (d : Z) : 0 <= d < 16 -> is_hex (hexdigit d) = true.
Proof.
  intros H.
  assert (d = 0 \/ d = 1 \/ d = 2 \/ d = 3 \/ d = 4 \/ d = 5 \/ d = 6 \/ d = 7
          \/ d = 8 \/ d = 9 \/ d = 10 \/ d = 11 \/ d = 12 \/ d = 13 \/ d = 14
          \/ d = 15) as Hd by lia.
  repeat (destruct Hd as [-> | Hd]; [reflexivity|]). subst d. reflexivity.
Qed.

Lemma hex_all_hex (n : nat) (u : Z) :
  Forall (fun c => is_hex c = true) (hex n u).
Proof.
  revert u. induction n as [|n IH]; intros u; simpl; [constructor|].
  apply Forall_app. split; [apply IH|].
  constructor; [|constructor]. apply hexdigit_is_hex.
  apply Z.mod_pos_bound. lia.
Qed.

(** The digit at position [i] of [hex n u], counted from the left. *)
Lemma hex_lookup (n i : nat) (u : Z) :
  (i < n)%nat ->
  hex n u !! i = Some (hexdigit ((u / 16 ^ Z.of_nat (n - 1 - i)) mod 16)).
Proof.
  revert u. induction n as [|n IH]; intros u Hi; [lia|]. cbn [hex].
  unfold str, char in *.
  destruct (decide (i < n)%nat) as [Hlt|Hge].
  - rewrite lookup_app_l by (rewrite hex_length; assumption).
    rewrite IH by assumption. do 3 f_equal.
    rewrite Z.div_div by lia.
    replace (Z.of_nat (S n - 1 - i)) with (Z.succ (Z.of_nat (n - 1 - i))) by lia.
    rewrite Z.pow_succ_r by lia. reflexivity.
  - rewrite lookup_app_r by (rewrite hex_length; lia).
    rewrite hex_length. replace (i - n)%nat with 0%nat by lia.
    replace (S n - 1 - i)%nat with 0%nat by lia. simpl.
    rewrite Z.div_1_r. reflexivity.
Qed.

Lemma grouped_lookup (h : str) :
  length h = 32%nat ->
  let s := take 8 h ++ py "-" ++ take 4 (drop 8 h) ++ py "-"
             ++ take 4 (drop 12 h) ++ py "-" ++ take 4 (drop 16 h)
             ++ py "-" ++ drop 20 h in
  length s = 36%nat /\
  s !! 8%nat = Some 45%N /\ s !! 13%nat = Some 45%N /\
  s !! 18%nat = Some 45%N /\ s !! 23%nat = Some 45%N /\
  s !! 14%nat = h !! 12%nat /\ s !! 19%nat = h !! 16%nat.
Proof.
  intros H.
  do 32 (destruct h as [|? h]; [discriminate H|]).
  destruct h; [|discriminate H]. cbv zeta. repeat split; reflexivity.
Qed.

Lemma grouped_chars (h : str) :
  length h = 32%nat ->
  Forall (fun c => is_hex c = true) h ->
  let s := take 8 h ++ py "-" ++ take 4 (drop 8 h) ++ py "-"
             ++ take 4 (drop 12 h) ++ py "-" ++ take 4 (drop 16 h)
             ++ py "-" ++ drop 20 h in
  forall (i : nat) (c : char), s !! i = Some c ->
    if decide (i = 8 \/ i = 13 \/ i = 18 \/ i = 23)%nat
    then c = 45%N else is_hex c = true.
Proof.
  intros H Hf.
  do 32 (destruct h as [|? h]; [discriminate H|]).
  destruct h; [|discriminate H]. cbv zeta.
  repeat match goal with
         | H : Forall _ (_ :: _) |- _ => apply Forall_cons in H as [? H]
         end.
  intros i c Hc.
  do 36 (destruct i as [|i];
         [injection Hc as <-; case_decide;
          first [reflexivity | assumption | lia]|]).
  discriminate Hc.
Qed.

(** The text of a job identifier: 36 characters, hyphens at positions 8,
    13, 18 and 23 and lower-case hexadecimal digits elsewhere, with the
    version digit [4] at position 14 and one of [8], [9], [a], [b] at
    position 19. *)
Theorem job_id_format (urandom : Z) :
  let job_id := uuid_str (uuid4 urandom) in
  length job_id = 36%nat /\
  (forall (i : nat) (c : char), job_id !! i = Some c ->
     if decide (i = 8 \/ i = 13 \/ i = 18 \/ i = 23)%nat
     then c = 45%N else is_hex c = true) /\
  job_id !! 14%nat = Some 52%N /\
  (exists c, job_id !! 19%nat = Some c /\
             (c = 56 \/ c = 57 \/ c = 97 \/ c = 98)%N).
Proof.
  cbv zeta. unfold uuid_str. cbv zeta.
  set (u := uuid4 urandom).
  pose proof (grouped_lookup (hex 32 u) (hex_length 32 u)) as G.
  cbv zeta in G. destruct G as (Hl & _ & _ & _ & _ & H14 & H19).
  destruct (uuid4_version urandom) as [Hv Hr]. fold u in Hv, Hr.
  rewrite Z.shiftr_div_pow2 in Hv, Hr by lia.
  change 0xf with (Z.ones 4) in Hv. change 0x3 with (Z.ones 2) in Hr.
  rewrite Z.land_ones in Hv, Hr by lia.
  split; [exact Hl|]. split; [|split].
  - apply (grouped_chars (hex 32 u)); [apply hex_length | apply hex_all_hex].
  - etransitivity; [exact H14|]. rewrite hex_lookup by lia.
    change (16 ^ Z.of_nat (32 - 1 - 12)) with (2 ^ 76).
    change 16 with (2 ^ 4) at 1. rewrite Hv. reflexivity.
  - eexists. split; [etransitivity; [exact H19 | apply hex_lookup; lia]|].
    change (16 ^ Z.of_nat (32 - 1 - 16)) with (2 ^ 60).
    assert (E : (u / 2 ^ 60) mod 16 = (u / 2 ^ 60) mod 4 + 8).
    { change 16 with (4 * 4). rewrite Z.rem_mul_r by lia.
      rewrite Z.div_div by lia. change (2 ^ 60 * 4) with (2 ^ 62).
      change 4 with (2 ^ 2) at 3. rewrite Hr. lia. }
    rewrite E.
    pose proof (Z.mod_pos_bound (u / 2 ^ 60) 4 ltac:(lia)) as Hb.
    assert ((u / 2 ^ 60) mod 4 = 0 \/ (u / 2 ^ 60) mod 4 = 1 \/
            (u / 2 ^ 60) mod 4 = 2 \/ (u / 2 ^ 60) mod 4 = 3)
      as [-> | [-> | [-> | ->]]] by lia; vm_compute; auto.
Qed.

(** ** From submission to delivery *)

Lemma polls_frame (job_id : str) (ds : list Z) (w : World) :
  queue (snd (polls job_id ds w)) = queue w /\
  queue_fault (snd (polls job_id ds w)) = queue_fault w /\
  archive (snd (polls job_id ds w)) = archive w.
Proof.
  revert w. induction ds as [|d ds IH]; intros w; simpl; [auto|].
  destruct (get_job_result job_id (advance d w)) as [r w'] eqn:E.
  specialize (IH w'). destruct (polls job_id ds w') as [rs w''].
  simpl in *.
  pose proof (get_job_result_frame job_id (advance d w)) as F.
  rewrite E in F. simpl in F. destruct F as (_ & F1 & F2 & F3 & _).
  destruct IH as (I1 & I2 & I3). repeat split; congruence.
Qed.

Lemma work_head (deps : Deps) (w : World) (k : Kind)
    (job_id : str) (item_dict : gmap str (option str)) (q : list Job) :
  queue w = MkJob (name_of k) job_id item_dict :: q ->
  work deps w = handler k deps job_id item_dict (with_queue (fun _ => q) w).
Proof.
  intros Hq. unfold work. rewrite Hq. destruct k; reflexivity.
Qed.

(** The whole life of a job.  A submission is accepted by an idle
    deployment whose store does not know the identifier; polls before the
    worker's turn all return pending and lose nothing; the worker then
    runs the job; the poll that comes within 300 seconds of the run
    returns complete with the body of the run, provided it is not empty;
    every poll after that returns pending. *)
Theorem job_life_cycle (urandom : Z) (s : Submission) (deps : Deps)
    (w : World) (before after : list Z) (d1 d2 : Z) :
  let job_id := uuid_str (uuid4 urandom) in
  let body := body_of (outcome (kind_of s) deps (payload_of s)) in
  queue w = [] -> queue_fault w = None ->
  redis w !! result_key job_id = None ->
  body <> [] -> 0 <= d2 <= 300000 ->
  let w1 := snd (submit urandom s w) in
  let w2 := snd (polls job_id before w1) in
  let w3 := snd (work deps (advance d1 w2)) in
  let w4 := snd (get_job_result job_id (advance d2 w3)) in
  fst (submit urandom s w) = Ok (queued job_id) /\
  Forall (fun r => r = Ok pending) (fst (polls job_id before w1)) /\
  fst (work deps (advance d1 w2)) = Ok tt /\
  queue w3 = [] /\
  fst (get_job_result job_id (advance d2 w3)) = Ok (complete body) /\
  Forall (fun r => r = Ok pending) (fst (polls job_id after w4)).
Proof.
  intros job_id body Hq Hf Hn Hb Hd. cbv zeta.
  rewrite (submit_accepted urandom s w Hf). cbv zeta. simpl. fold job_id.
  set (w1 := log _ _).
  assert (Hp : forall now,
            truthy (store_get now (redis w1) (result_key job_id)) = false).
  { intros now. unfold store_get. simpl. rewrite Hn. reflexivity. }
  destruct (polls_pending job_id before w1 Hp) as [Hp1 Hp2].
  destruct (polls_frame job_id before w1) as (Hq2 & _).
  set (w2 := snd (polls job_id before w1)) in *.
  assert (Hq3 : queue (advance d1 w2)
                = [MkJob (name_of (kind_of s)) job_id (payload_of s)]).
  { simpl. rewrite Hq2. simpl. rewrite Hq. reflexivity. }
  pose proof (work_head deps (advance d1 w2) (kind_of s) job_id
                (payload_of s) [] Hq3) as Hw.
  assert (Hwq : queue (snd (work deps (advance d1 w2))) = [])
    by (rewrite Hw, handler_run; reflexivity).
  rewrite Hw in *.
  split; [reflexivity|]. split; [exact Hp1|].
  split; [rewrite handler_run; reflexivity|]. split; [exact Hwq|].
  pose proof (poll_after_run (kind_of s) deps job_id (payload_of s)
                (with_queue (fun _ => []) (advance d1 w2)) d2 (proj2 Hd) Hb)
    as Hc.
  split; [exact Hc|].
  destruct (get_job_result_cases job_id
              (advance d2
                 (snd (handler (kind_of s) deps job_id (payload_of s)
                         (with_queue (fun _ => []) (advance d1 w2))))))
    as [(c & v & _ & E)|[_ E]]; rewrite E in Hc |- *; simpl in Hc |- *;
    [|discriminate Hc].
  apply polls_pending. intros now. simpl. rewrite store_get_delete.
  reflexivity.
Qed.

(** A transcript is submitted to a fresh deployment, polled twice, run a
    second later, polled within two seconds and twice more. *)
Lemma job_life_cycle_witness :
  let deps := deps_with (Ok (py " Done. ")) None in
  let job_id := py "00000000-0000-4000-8000-000000000000" in
  let w1 := snd (submit 0 (Transcript acme) world0) in
  let w2 := snd (polls job_id [100; 100] w1) in
  let w3 := snd (work deps (advance 1000 w2)) in
  fst (polls job_id [100; 100] w1) = [Ok pending; Ok pending] /\
  fst (get_job_result job_id (advance 2000 w3)) = Ok (complete (py "Done.")).
Proof.
  pose proof (job_life_cycle 0 (Transcript acme)
                (deps_with (Ok (py " Done. ")) None) world0
                [100; 100] [5; 5] 1000 2000) as H.
  cbv zeta in H.
  specialize (H eq_refl eq_refl eq_refl ltac:(discriminate) ltac:(lia)).
  destruct H as (_ & Hp & _ & _ & Hc & _).
  split; [|exact Hc].
  vm_compute. reflexivity.
Defined.

(** ** Errors and texts look alike *)

(** A poll cannot tell a failed run from a successful one: the response
    to a run that failed with [e] is the response to a run whose model
    returned the text [Error: e] (for an [e] that does not end in white
    space). *)
Theorem error_looks_like_text (k : Kind) (deps1 deps2 : Deps) (job_id : str)
    (item_dict : gmap str (option str)) (w : World) (e : str) (c : char)
    (d : Z) :
  last e = Some c -> isspace c = false ->
  outcome k deps1 item_dict = GenerationFailed e ->
  outcome k deps2 item_dict = Succeeded (py "Error: " ++ e) ->
  fst (get_job_result job_id
         (advance d (snd (handler k deps1 job_id item_dict w))))
  = fst (get_job_result job_id
           (advance d (snd (handler k deps2 job_id item_dict w)))).
Proof.
  intros Hl Hc H1 H2.
  assert (Hs : strip (py "Error: " ++ e) = py "Error: " ++ e).
  { apply strip_id.
    - intros c' Hc'. simpl in Hc'. injection Hc' as <-. reflexivity.
    - intros c' Hc'. rewrite last_app, Hl in Hc'. congruence. }
  assert (Hr : redis (snd (handler k deps1 job_id item_dict w))
               = redis (snd (handler k deps2 job_id item_dict w))).
  { rewrite !handler_redis, H1, H2. cbn [body_of]. rewrite Hs. reflexivity. }
  set (w1 := snd (handler k deps1 job_id item_dict w)) in *.
  set (w2 := snd (handler k deps2 job_id item_dict w)) in *.
  assert (Hg : store_get (clock (advance d w1)) (redis (advance d w1))
                 (result_key job_id)
               = store_get (clock (advance d w2)) (redis (advance d w2))
                   (result_key job_id)).
  { simpl. unfold w1, w2. rewrite !handler_clock. fold w1 w2.
    rewrite Hr. reflexivity. }
  destruct (get_job_result_cases job_id (advance d w2))
    as [(c0 & v & Hw & E)|[Hw E]]; rewrite E; simpl.
  - rewrite (get_job_result_complete job_id (advance d w1) c0 v);
      [reflexivity|]. rewrite Hg. exact Hw.
  - rewrite get_job_result_pending; [reflexivity|]. rewrite Hg. exact Hw.
Qed.

Lemma error_looks_like_text_witness :
  fst (get_job_result (py "j1")
         (advance 5 (snd (handler TranscriptAnalysis
                            (deps_with (Raise (py "429")) None) (py "j1")
                            (transcript_dict acme) world0))))
  = fst (get_job_result (py "j1")
           (advance 5 (snd (handler TranscriptAnalysis
                              (deps_with (Ok (py "Error: 429")) None) (py "j1")
                              (transcript_dict acme) world0)))).
Proof.
  apply (error_looks_like_text TranscriptAnalysis
           (deps_with (Raise (py "429")) None)
           (deps_with (Ok (py "Error: 429")) None) (py "j1")
           (transcript_dict acme) world0 (py "429") 57%N 5);
    reflexivity.
Defined.

(** ** Failures at submission *)

Lemma post_with_handle (urandom : Z) (s : Submission) (w : World) :
  post None urandom s w = submit urandom s w.
Proof. reflexivity. Qed.

(** C7, as the code has it.  When [enqueue_job] raises, the endpoint
    answers at once with [{error: Failed to queue job: ...}]: it has tried
    to enqueue once and only once, and the queue, the store and the sink
    are as before, so no job exists.  When the handle on the queue cannot
    be created for the request, the endpoint does not run at all: the
    request ends with that exception and the world is untouched.  A
    later request that is accepted carries an identifier made from its
    own random bytes, equal to the identifier of the failed request
    exactly when the two draws agree on the 122 bits [uuid4] keeps. *)
Theorem submission_failure (create_pool : option str) (urandom urandom' : Z)
    (s : Submission) (w : World) (e : str) :
  let job_id := uuid_str (uuid4 urandom) in
  (create_pool = None -> queue_fault w = Some e ->
     let w1 := snd (post create_pool urandom s w) in
     fst (post create_pool urandom s w)
     = Ok [(py "error", py "Failed to queue job: " ++ e)] /\
     queue w1 = queue w /\ redis w1 = redis w /\ archive w1 = archive w /\
     trace w1 = trace w ++ [EvEnqueue (name_of (kind_of s)) job_id]) /\
  (create_pool = Some e -> post create_pool urandom s w = (Raise e, w)) /\
  (forall w2, queue_fault w2 = None ->
     let job_id' := uuid_str (uuid4 urandom') in
     fst (post None urandom' s w2) = Ok (queued job_id') /\
     queue (snd (post None urandom' s w2))
     = queue w2 ++ [MkJob (name_of (kind_of s)) job_id' (payload_of s)] /\
     (job_id' = job_id <->
      forall n, 0 <= n < 128 -> forced n = None ->
                Z.testbit urandom' n = Z.testbit urandom n)).
Proof.
  cbv zeta. split; [|split].
  - intros -> Hq. rewrite post_with_handle.
    rewrite (submit_refused urandom s w e Hq). simpl.
    repeat split; reflexivity.
  - intros ->. reflexivity.
  - intros w2 Hq2. rewrite post_with_handle.
    rewrite (submit_accepted urandom' s w2 Hq2). simpl.
    split; [reflexivity|]. split; [reflexivity|].
    rewrite job_id_eq_iff. apply uuid4_eq_iff.
Qed.

(** The queue refuses a request, then accepts the caller's second try. *)
Lemma submission_failure_witness :
  let down := MkWorld 0 ∅ [] (Some (py "Connection refused")) [] [] in
  fst (post None 7 (Transcript acme) down)
  = Ok [(py "error", py "Failed to queue job: Connection refused")] /\
  queue (snd (post None 7 (Transcript acme) down)) = [] /\
  post (Some (py "Connection refused")) 7 (Transcript acme) world0
  = (Raise (py "Connection refused"), world0) /\
  fst (post None 8 (Transcript acme) world0)
  = Ok (queued (uuid_str (uuid4 8))).
Proof.
  pose proof (submission_failure None 7 8 (Transcript acme)
                (MkWorld 0 ∅ [] (Some (py "Connection refused")) [] [])
                (py "Connection refused")) as H.
  pose proof (submission_failure (Some (py "Connection refused")) 7 8
                (Transcript acme) world0 (py "Connection refused")) as H'.
  cbv zeta in H, H'. destruct H as (H1 & _ & H3). destruct H' as (_ & H2 & _).
  destruct (H1 eq_refl eq_refl) as (Ha & Hb & _).
  destruct (H3 world0 eq_refl) as (Hc & _).
  split; [exact Ha|]. split; [exact Hb|]. split; [exact (H2 eq_refl)|].
  exact Hc.
Defined.

(** C7 as stated fails twice.  A request is refused by the queue and the
    caller's second request, whose random bytes differ in bit 78 only, is
    given the very identifier the refused request had tried to enqueue.
    And when Redis cannot be reached at all, the request ends with the
    exception of [get_queue], not with an error response of the
    endpoint. *)
Lemma resubmission_repeats_job_id :
  let down := MkWorld 0 ∅ [] (Some (py "Connection refused")) [] [] in
  let job_id := py "00000000-0000-4000-8000-000000000000" in
  (fst (post None 0 (Transcript acme) down)
   = Ok [(py "error", py "Failed to queue job: Connection refused")] /\
   trace (snd (post None 0 (Transcript acme) down))
   = [EvEnqueue (py "run_transcript_analysis") job_id] /\
   fst (post None (2 ^ 78) (Transcript acme) world0) = Ok (queued job_id)) /\
  fst (post (Some (py "Connection refused")) 0 (Transcript acme) world0)
  = Raise (py "Connection refused").
Proof. vm_compute. repeat split; reflexivity. Qed.

(** ** Loading the worker *)



(** A module that has loaded without its configuration serves every job
    with the same error: when [GEMINI_API_KEY] is unset or empty, or one
    of the two Supabase variables is, every run of either kind leaves
    [Error: Worker not initialized]. *)
Theorem load_worker_unconfigured (env : gmap str str)
    (configure : str -> option str)
    (create_client : str -> str -> Result Client)
    (GenerativeModel : str -> str -> Result Model)
    (from_dsn : str -> option str) (w : World) (m : WorkerModule) :
  truthy (env !! py "GEMINI_API_KEY") = false \/
  truthy (env !! py "SUPABASE_URL") = false \/
  truthy (env !! py "SUPABASE_SERVICE_KEY") = false ->
  fst (load_worker env configure create_client GenerativeModel from_dsn w)
  = Ok m ->
  forall (k : Kind) (job_id : str) (item_dict : gmap str (option str))
         (w' : World),
    outcome k (module_deps m) item_dict = Uninitialized /\
    redis (snd (handler k (module_deps m) job_id item_dict w'))
      !! result_key job_id
    = Some (Entry (py "Error: Worker not initialized")
              (clock w' + 1000 * 300)).
Proof.
  intros Hcfg Hl k job_id item_dict w'.
  assert (Ho : outcome k (module_deps m) item_dict = Uninitialized).
  { assert (Hd : (transcript_model (module_deps m) = None /\
                  icebreaker_model (module_deps m) = None)
                 \/ supabase (module_deps m) = None).
    { revert Hl. unfold load_worker, bind, print, ret, raise.
      destruct (env !! py "GEMINI_API_KEY") as [[|c key]|];
        try destruct (configure _);
        destruct (env !! py "SUPABASE_URL") as [[|u url]|];
        destruct (env !! py "SUPABASE_SERVICE_KEY") as [[|c' key']|]; simpl;
        try destruct (create_client _ _); simpl;
        try (destruct (GenerativeModel _ _); [destruct (GenerativeModel _ _)|]);
        simpl; try destruct (from_dsn _); simpl;
        intros Hl; try discriminate Hl; injection Hl as <-; simpl; auto.
      all: exfalso; simpl in Hcfg; destruct Hcfg as [H|[H|H]]; discriminate H. }
    unfold outcome. destruct Hd as [[Ht Hi]|Hs].
    - destruct k; simpl; rewrite ?Ht, ?Hi; reflexivity.
    - rewrite Hs. destruct (model_of k (module_deps m)); reflexivity. }
  split; [exact Ho|].
  rewrite handler_redis, Ho. apply lookup_insert_eq.
Qed.

(** Supabase is configured and reachable, the Gemini key is not set. *)
Lemma load_worker_unconfigured_witness :
  let env : gmap str str :=
    <[py "SUPABASE_URL" := py "u"]>
      (<[py "SUPABASE_SERVICE_KEY" := py "s"]> ∅) in
  let m := MkWorkerModule (MkDeps None None (Some (fun _ _ => None)))
             (py "redis://localhost:6379") in
  fst (load_worker env (fun _ => None) (fun _ _ => Ok (fun _ _ => None))
         (fun _ _ => Ok (fun _ => Ok (py "Done."))) (fun _ => None) world0)
  = Ok m /\
  redis (snd (handler TranscriptAnalysis (module_deps m) (py "j1")
                (transcript_dict acme) world0)) !! result_key (py "j1")
  = Some (Entry (py "Error: Worker not initialized") 300000).
Proof.
  cbv zeta.
  set (env := <[py "SUPABASE_URL" := py "u"]>
                (<[py "SUPABASE_SERVICE_KEY" := py "s"]> (∅ : gmap str str))).
  set (m := MkWorkerModule (MkDeps None None (Some (fun _ _ => None)))
              (py "redis://localhost:6379")).
  assert (Hl : fst (load_worker env (fun _ => None)
                      (fun _ _ => Ok (fun _ _ => None))
                      (fun _ _ => Ok (fun _ => Ok (py "Done.")))
                      (fun _ => None) world0) = Ok m)
    by (vm_compute; reflexivity).
  split; [exact Hl|].
  assert (Hk : truthy (env !! py "GEMINI_API_KEY") = false)
    by (vm_compute; reflexivity).
  exact (proj2 (load_worker_unconfigured env _ _ _ _ world0 m (or_introl Hk)
                  Hl TranscriptAnalysis (py "j1") (transcript_dict acme)
                  world0)).
Defined.


